(** * mu-docker-compose-handler: the provisioning handlers of
    [mudrchandler/main.py], embedded in Rocq.

    The Python handlers are written in explicit state-and-exception passing
    style.  Request bodies are JSON values with Python's subscript rules, the
    triple store is a finite set of triples, and everything the process does
    to the outside (queries, updates, the [git clone] child process, the file
    read) is recorded in a trace. *)

From Stdlib Require Import String Ascii ZArith List Bool.
From stdpp Require Import base decidable option list sets gmap strings.

Local Open Scope string_scope.
Local Open Scope Z_scope.
Local Set Warnings "-register-all".

(** ** Python values and exceptions *)

Module Py.

(** What [request.json()] produces.  [JNull] is Python's [None]; an object
    holds the items of the resulting [dict]; numbers are kept as integers. *)
Inductive json : Type :=
| JNull
| JBool (b : bool)
| JNum (n : Z)
| JStr (s : string)
| JArr (items : list json)
| JObj (items : list (string * json)).

(** The exception classes that can travel through the handlers. *)
Inductive exn : Type :=
| AttributeError
| KeyError
| IndexError
| TypeError
| FileNotFoundError
| NotFoundError.

(** A Python expression either yields a value or raises. *)
Inductive res (A : Type) : Type :=
| Ok (a : A)
| Raise (e : exn).
Arguments Ok {A} a.
Arguments Raise {A} e.

Definition rbind {A B} (r : res A) (k : A → res B) : res B :=
  match r with
  | Ok a => k a
  | Raise e => Raise e
  end.

Declare Scope res_scope.
Delimit Scope res_scope with res.
Notation "x <- c ;; k" := (rbind c (fun x => k))
  (at level 100, c at next level, right associativity) : res_scope.

(** [d[k]] on a dict. *)
Fixpoint dict_get (items : list (string * json)) (k : string) : option json :=
  match items with
  | [] => None
  | (k', v) :: rest => if String.eqb k' k then Some v else dict_get rest k
  end.

(** [x[k]] with a string key: only a dict accepts it, and raises [KeyError]
    when the key is absent; every other value raises [TypeError]. *)
Definition getitem (x : json) (k : string) : res json :=
  match x with
  | JObj items =>
      match dict_get items k with
      | Some v => Ok v
      | None => Raise KeyError
      end
  | _ => Raise TypeError
  end.

(** [x[0]]: first element of a list ([IndexError] when empty), first
    character of a string, [KeyError] on a dict (its keys are strings). *)
Definition getitem0 (x : json) : res json :=
  match x with
  | JArr [] => Raise IndexError
  | JArr (v :: _) => Ok v
  | JStr EmptyString => Raise IndexError
  | JStr (String c _) => Ok (JStr (String c EmptyString))
  | JObj _ => Raise KeyError
  | _ => Raise TypeError
  end.

Fixpoint chars (s : string) : list json :=
  match s with
  | EmptyString => []
  | String c rest => JStr (String c EmptyString) :: chars rest
  end.

(** [for elem in x]: a list yields its elements, a dict its keys, a string
    its characters; anything else is not iterable. *)
Definition iterate (x : json) : res (list json) :=
  match x with
  | JArr items => Ok items
  | JObj items => Ok (map (λ kv, JStr (fst kv)) items)
  | JStr s => Ok (chars s)
  | _ => Raise TypeError
  end.

(** [x == "literal"]: true only for the same string. *)
Definition eq_str (x : json) (s : string) : bool :=
  match x with
  | JStr s' => String.eqb s' s
  | _ => false
  end.

(** Truth value of [x] in [if x:]. *)
Definition truthy (x : json) : bool :=
  match x with
  | JNull => false
  | JBool b => b
  | JNum n => negb (n =? 0)
  | JStr s => negb (String.eqb s "")
  | JArr items => match items with [] => false | _ => true end
  | JObj items => match items with [] => false | _ => true end
  end.

End Py.
Import Py.
Local Open Scope res_scope.

(** ** The change filter: [Application.stack_inserted] *)

Definition STACK_TYPE : string := "http://usefulinc.com/ns/doap#Stack".
Definition RDF_TYPE : string := "http://www.w3.org/1999/02/22-rdf-syntax-ns#type".

(** The list comprehension of [stack_inserted].  For each element the filter
    is evaluated first, [elem['o']['value'] == ...] before
    [elem['p']['value'] == ...] (the second operand of [and] only when the
    first holds), and [elem['s']['value']] only for an element that passed. *)
Fixpoint stack_inserted_comprehension (elems : list json) : res (list json) :=
  match elems with
  | [] => Ok []
  | elem :: rest =>
      o <- getitem elem "o" ;;
      ov <- getitem o "value" ;;
      keep <- (if eq_str ov STACK_TYPE
               then p <- getitem elem "p" ;;
                    pv <- getitem p "value" ;;
                    Ok (eq_str pv RDF_TYPE)
               else Ok false) ;;
      if (keep : bool)
      then s <- getitem elem "s" ;;
           sv <- getitem s "value" ;;
           tl <- stack_inserted_comprehension rest ;;
           Ok (sv :: tl)
      else stack_inserted_comprehension rest
  end.

(** [return stack_uri[0] if stack_uri else None] *)
Definition stack_inserted (inserts : json) : res json :=
  elems <- iterate inserts ;;
  stack_uri <- stack_inserted_comprehension elems ;;
  Ok (match stack_uri with
      | [] => JNull
      | first :: _ => first
      end).

(** *** Triples of the documented shape *)

(** An inserted triple as the delta service sends it: subject, predicate and
    object, each an object carrying its text under ["value"]. *)
Record triple_in : Type := TripleIn {
  subject : string;
  predicate : string;
  object : string;
}.

Definition value_of (x : json) : option string :=
  match getitem x "value" with
  | Ok (JStr v) => Some v
  | _ => None
  end.

Definition field_value (elem : json) (k : string) : option string :=
  match getitem elem k with
  | Ok x => value_of x
  | Raise _ => None
  end.

(** Reads a JSON element as a triple; [None] when it is not one. *)
Definition as_triple (elem : json) : option triple_in :=
  match field_value elem "s", field_value elem "p", field_value elem "o" with
  | Some s, Some p, Some o => Some (TripleIn s p o)
  | _, _, _ => None
  end.

(** A triple qualifies when it says [subject rdf:type Stack]. *)
Definition qualifies (t : triple_in) : bool :=
  String.eqb (predicate t) RDF_TYPE && String.eqb (object t) STACK_TYPE.

(** A term and a triple in the delta service's encoding. *)
Definition term_json (kind value : string) : json :=
  JObj [("type", JStr kind); ("value", JStr value)].

Definition triple_json (t : triple_in) : json :=
  JObj [("s", term_json "uri" (subject t));
        ("p", term_json "uri" (predicate t));
        ("o", term_json "uri" (object t))].

(** ** The triple store *)

(** The application graph that [self.sparql] reads and writes, as a finite
    set of triples.  A term is an IRI or a plain string literal. *)
Inductive term : Type :=
| Iri (iri : string)
| Lit (text : string).

#[global] Instance term_eq_dec : EqDecision term.
Proof. solve_decision. Defined.

#[global] Instance term_countable : Countable term.
Proof.
  refine (inj_countable'
            (λ t, match t with Iri s => inl s | Lit s => inr s end)
            (λ x, match x with inl s => Iri s | inr s => Lit s end) _).
  by intros [].
Defined.

Abbreviation triple := (term * term * term)%type.

Definition subj (t : triple) : term := t.1.1.
Definition pred (t : triple) : term := t.1.2.
Definition obj (t : triple) : term := t.2.

(** The vocabulary of the three statements in [main.py], prefixes expanded. *)
Definition MU_UUID : term := Iri "http://mu.semte.ch/vocabularies/core/uuid".
Definition DOCKER_COMPOSE_FILE : term :=
  Iri "http://swarmui.semte.ch/vocabularies/core/dockerComposeFile".
(** SPARQL's [a]. *)
Definition IS_A : term := Iri RDF_TYPE.
Definition DOCKER_COMPOSE : term :=
  Iri "http://stackbuilder.semte.ch/vocabularies/core/DockerCompose".
Definition TEXT : term := Iri "http://stackbuilder.semte.ch/vocabularies/core/text".
Definition TITLE : term := Iri "http://purl.org/dc/terms/title".

Definition drc_uri_of (drc_uuid : string) : string :=
  "http://stack-builder.big-data-europe.eu/resources/docker-composes/" ++ drc_uuid.
Definition stack_uri_of (stack_uuid : string) : string :=
  "http://swarm-ui.big-data-europe.eu/resources/stacks/" ++ stack_uuid.

(** ["stack_{}_drc_{}".format(stack_uuid, drc_uuid)] *)
Definition title_of (stack_uuid drc_uuid : string) : string :=
  "stack_" ++ stack_uuid ++ "_drc_" ++ drc_uuid.

(** A Stack-to-manifest edge leaving [s]. *)
Definition is_edge_of (s : term) (t : triple) : Prop :=
  subj t = s ∧ pred t = DOCKER_COMPOSE_FILE.

#[global] Instance is_edge_of_dec s t : Decision (is_edge_of s t).
Proof. unfold is_edge_of. apply _. Defined.

(** What the store answers to the [ASK] of [ensure_stack_has_drc]: some node
    carries the uuid and has a [dockerComposeFile] edge. *)
Definition ask_has_drc (G : gset triple) (uuid : string) : bool :=
  bool_decide (set_Exists
    (λ t, pred t = MU_UUID ∧ obj t = Lit uuid ∧
          set_Exists (is_edge_of (subj t)) G) G).

(** What the store does with the [INSERT DATA] of [create_drc_db]. *)
Definition manifest_triples (uri drc_uuid drc title : string) : gset triple :=
  {[ (Iri uri, IS_A, DOCKER_COMPOSE);
     (Iri uri, MU_UUID, Lit drc_uuid);
     (Iri uri, TEXT, Lit drc);
     (Iri uri, TITLE, Lit title) ]}.

Definition insert_manifest (uri drc_uuid drc title : string) (G : gset triple)
  : gset triple :=
  G ∪ manifest_triples uri drc_uuid drc title.

(** What the store does with the [DELETE ... WHERE { OPTIONAL ... };
    INSERT DATA ...] of [update_stack_drc]: every edge leaving the stack goes,
    then the new edge is added.  The text sent means this when [stack_uri]
    and [drc_uri] can stand between [<] and [>] as they are; the source puts
    them there unescaped, and [read_relink] below reads the text back. *)
Definition relink (stack_uri drc_uri : string) (G : gset triple) : gset triple :=
  filter (λ t, ¬ is_edge_of (Iri stack_uri) t) G
  ∪ {[ (Iri stack_uri, DOCKER_COMPOSE_FILE, Iri drc_uri) ]}.

(** The manifests and the edges of a graph. *)
Definition manifests (G : gset triple) : gset term :=
  set_map subj (filter (λ t, pred t = IS_A ∧ obj t = DOCKER_COMPOSE) G).

Definition edges_of (s : term) (G : gset triple) : gset term :=
  set_map obj (filter (is_edge_of s) G).


(** ** Query texts *)

Definition dquote : string := String "034"%char EmptyString.
Definition backslash : string := String "092"%char EmptyString.
Definition newline : string := String "010"%char EmptyString.

Definition lines (ls : list string) : string := String.concat newline ls.

(** [str.replace(old, new)] for a one-character [old]. *)
Fixpoint replace_char (old : ascii) (new : string) (s : string) : string :=
  match s with
  | EmptyString => EmptyString
  | String c rest =>
      if Ascii.eqb c old then new ++ replace_char old new rest
      else String c (replace_char old new rest)
  end.

(** [escape_string] of aiosparql: backslashes are doubled, then every double
    quote receives a backslash, and the result is wrapped in triple quotes. *)
Definition escape_text (value : string) : string :=
  dquote ++ dquote ++ dquote
  ++ replace_char "034"%char (backslash ++ dquote)
       (replace_char "092"%char (backslash ++ backslash) value)
  ++ dquote ++ dquote ++ dquote.

(** Called on anything but a [str], [value.replace] is an attribute error. *)
Definition escape_string (value : json) : res string :=
  match value with
  | JStr s => Ok (escape_text s)
  | _ => Raise AttributeError
  end.

(** [format] of a [str]; the callers below only reach it with one. *)
Definition text_of (x : json) : string :=
  match x with
  | JStr s => s
  | _ => EmptyString
  end.

(** The text of [ensure_stack_has_drc]; [uuid] arrives escaped. *)
Definition ensure_stack_has_drc_text (graph uuid : string) : string :=
  lines [ "ASK FROM " ++ graph ++ " WHERE {";
          "?s <http://mu.semte.ch/vocabularies/core/uuid> " ++ uuid ++ " .";
          "?s <http://swarmui.semte.ch/vocabularies/core/dockerComposeFile> ?x .";
          "}" ].

(** The text of [create_drc_db]; [drc_uuid], [drc] and [title] arrive
    escaped, [uri] as it is. *)
Definition create_drc_db_text (graph uri drc_uuid drc title : string) : string :=
  lines [ "PREFIX dct: <http://purl.org/dc/terms/>";
          "PREFIX mu: <http://mu.semte.ch/vocabularies/core/>";
          "PREFIX stackbuilder: <http://stackbuilder.semte.ch/vocabularies/core/>";
          "INSERT DATA";
          "{";
          "GRAPH " ++ graph ++ " {";
          "<" ++ uri ++ "> a stackbuilder:DockerCompose.";
          "<" ++ uri ++ "> mu:uuid " ++ drc_uuid ++ ".";
          "<" ++ uri ++ "> stackbuilder:text " ++ drc ++ ".";
          "<" ++ uri ++ "> dct:title " ++ title ++ ".";
          "}";
          "}" ].

(** The text of [update_stack_drc]; both URIs arrive as they are. *)
Definition update_stack_drc_text (graph stack_uri drc_uri : string) : string :=
  lines [ "PREFIX swarmui: <http://swarmui.semte.ch/vocabularies/core/>";
          "DELETE {";
          "GRAPH " ++ graph ++ " {";
          "<" ++ stack_uri ++ "> swarmui:dockerComposeFile ?s.";
          "}";
          "}";
          "WHERE {";
          "GRAPH " ++ graph ++ " {";
          "OPTIONAL {";
          "<" ++ stack_uri ++ "> swarmui:dockerComposeFile ?s.";
          "}";
          "}";
          "};";
          "INSERT DATA";
          "{";
          "GRAPH " ++ graph ++ " {";
          "<" ++ stack_uri ++ "> swarmui:dockerComposeFile <" ++ drc_uri ++ ">.";
          "}";
          "}" ].

(** ** The outside world *)

(** Modelled from the spec: the Stack classes ([mudrchandler/stack.py],
    [uuidstack.py] and [uristack.py]) are not part of the sources.  There are
    two kinds of reference, one made from the request payload and one from a
    node address found in a delta.  A [UUIDStack] holds the identifier given
    under ["uuid"] in the payload; a field that was supplied is returned
    without a lookup, and a field that is not known comes from one lookup
    against the graph, keyed by what the reference holds, whose result is kept
    for all three fields; a lookup that finds no node fails with
    [NotFoundError]. *)
Inductive stack : Type :=
| UUIDStack (uuid : json)
| URIStack (uri : json).

Record stack_fields : Type := StackFields {
  f_uuid : string;
  f_location : string;
  f_branch : string;
}.

(** Modelled from the spec: what a Stack reference knows of its fields at a
    given moment (the classes are not part of the sources).  A field is known
    when it was supplied at construction or after the lookup, which fills in
    all three. *)
Record known : Type := Known {
  k_uuid : option string;
  k_location : option string;
  k_branch : option string;
}.

Definition nothing_known : known := Known None None None.

Definition all_known (f : stack_fields) : known :=
  Known (Some (f_uuid f)) (Some (f_location f)) (Some (f_branch f)).

(** How [process.communicate()] under [asyncio.wait_for] ends, once the child
    was started: it exits in time and its return code is read, or the wait
    times out, and then the handle holds whatever return code it has at that
    moment (none while the child still runs) and [process.terminate()] may
    itself raise. *)
Inductive cmd_outcome : Type :=
| Exited (returncode : Z)
| TimedOut (returncode : option Z) (terminate_raises : bool).

(** Everything the handlers consume without owning it.  The runs covered
    are those in which the store answers every query and update it is sent,
    the child process can be started, and opening the manifest file gives
    its text or fails with FileNotFoundError. *)
Record env : Type := Env {
  app_graph : string;                              (* [{{graph}}], as an IRI reference *)
  uuid1_hex : nat → string;                        (* the n-th [uuid1().hex] *)
  lookup : gset triple → stack → option stack_fields;
  communicate : list string → Z → cmd_outcome;     (* argv, timeout *)
  read_file : string → option string;              (* [None]: no such file *)
  awaitable_repr : string;                         (* [format] of an un-awaited [stack.uuid] *)
}.

(** What the process does to the outside, in order. *)
Inductive event : Type :=
| Query (text : string)
| Update (text : string)
| Lookup (s : stack)
| Spawn (argv : list string)
| Terminate
| Open (path : string).

Record state : Type := State {
  graph : gset triple;
  drawn : nat;                        (* how many [uuid1()] were drawn *)
  memo : known;                       (* the fields known to the request's Stack *)
  trace : list event;
}.

(** ** The handler monad: state, and exceptions that keep the state *)

Definition M (T : Type) : Type := state → res T * state.

Definition ret {T} (a : T) : M T := λ σ, (Ok a, σ).

Definition raise {T} (e : exn) : M T := λ σ, (Raise e, σ).

Definition bind {T U} (m : M T) (k : T → M U) : M U :=
  λ σ, match m σ with
       | (Ok a, σ') => k a σ'
       | (Raise e, σ') => (Raise e, σ')
       end.

Definition lift {T} (r : res T) : M T := λ σ, (r, σ).

Declare Scope m_scope.
Delimit Scope m_scope with M.
Notation "x <- c ;; k" := (bind c (fun x => k))
  (at level 100, c at next level, right associativity) : m_scope.
Notation "c ;;; k" := (bind c (fun _ => k))
  (at level 100, k at level 200, right associativity) : m_scope.

Definition emit (ev : event) : M unit :=
  λ σ, (Ok tt, State (graph σ) (drawn σ) (memo σ) (trace σ ++ [ev])).

Definition get_graph : M (gset triple) := λ σ, (Ok (graph σ), σ).

Definition modify_graph (f : gset triple → gset triple) : M unit :=
  λ σ, (Ok tt, State (f (graph σ)) (drawn σ) (memo σ) (trace σ)).

Definition get_memo : M known := λ σ, (Ok (memo σ), σ).

Definition with_memo (m : known) (σ : state) : state :=
  State (graph σ) (drawn σ) m (trace σ).

Definition set_memo (m : known) : M unit := λ σ, (Ok tt, with_memo m σ).

Definition draw : M nat :=
  λ σ, (Ok (drawn σ), State (graph σ) (S (drawn σ)) (memo σ) (trace σ)).

(** [try: body except AttributeError: handler] *)
Definition try_except_AttributeError {T} (body handler : M T) : M T :=
  λ σ, match body σ with
       | (Raise AttributeError, σ') => handler σ'
       | r => r
       end.

(** ** Responses *)

Inductive http_body : Type :=
| JsonBody (j : json)         (* [body=json.dumps(j)] *)
| TextBody (s : string).

(** How a handler ends: it returns a [web.Response] (status 200), raises one
    of aiohttp's HTTP exceptions, or lets another exception escape. *)
Inductive outcome : Type :=
| Responded (status : Z) (body : http_body)
| RaisedHTTP (status : Z) (body : http_body)
| Unhandled (e : exn).

Definition success_envelope : json :=
  JObj [("data", JObj [("attributes",
                         JObj [("status", JNum 200);
                               ("message", JStr "DockerCompose created and Stack updated")]);
                       ("type", JStr "mu-docker-compose-handler")])].

Definition conflict_envelope (stack_uuid : string) : json :=
  JObj [("status", JNum 500);
        ("title", JStr "Stack already has DockerCompose");
        ("detail", JStr ("Stack " ++ stack_uuid ++ " already has DockerCompose linked to it"))].

Definition HTTPBadRequest (body : string) : outcome := RaisedHTTP 400 (TextBody body).
Definition HTTPInternalServerError (body : json) : outcome := RaisedHTTP 500 (JsonBody body).

(** [request.json()] either raises or delivers the parsed body. *)
Inductive request : Type :=
| InvalidJson
| Json (data : json).

(** [os.path.join(a, b)] for a relative [b]. *)
Fixpoint ends_with_slash (a : string) : bool :=
  match a with
  | EmptyString => false
  | String c EmptyString => Ascii.eqb c "/"%char
  | String _ rest => ends_with_slash rest
  end.

Definition path_join (a b : string) : string :=
  if ends_with_slash a then a ++ b else a ++ "/" ++ b.

Definition run_command_timeout : Z := 60.

(** ["/data/{}".format(uuid)] *)
Definition project_path_of (uuid : string) : string := "/data/" ++ uuid.

(** The arguments of the child process started by [docker_compose]. *)
Definition clone_argv (location branch project_path : string) : list string :=
  ["git"; "clone"; location; "-b"; branch; project_path].

(** The text the payload holds under [k], if it holds one. *)
Definition str_field (data : json) (k : string) : option string :=
  match getitem data k with
  | Ok (JStr v) => Some v
  | _ => None
  end.

(** Modelled from the spec: the fields a direct request supplies itself (the
    Stack classes are not part of the sources). *)
Definition payload_known (data : json) : known :=
  Known None (str_field data "location") (str_field data "branch").

(** [data['delta'][0]['inserts']] *)
Definition delta_inserts (data : json) : res json :=
  delta <- getitem data "delta" ;;
  first <- getitem0 delta ;;
  getitem first "inserts".

Section Application.

Variable E : env.

Local Open Scope m_scope.

(** *** Stack references *)

(** Modelled from the spec: reading one field of a Stack reference (the
    classes are not part of the sources).  A known field is returned as it
    is; otherwise the lookup is made and its result kept for all three
    fields, so that it is made at most once; when no node is found it fails
    with [NotFoundError]. *)
Definition resolve (field : known → option string)
    (looked_up : stack_fields → string) (s : stack) : M string :=
  m <- get_memo ;;
  match field m with
  | Some v => ret v
  | None =>
      emit (Lookup s) ;;;
      G <- get_graph ;;
      match lookup E G s with
      | Some f => set_memo (all_known f) ;;; ret (looked_up f)
      | None => raise NotFoundError
      end
  end.

(** [stack.uuid if isinstance(stack, UUIDStack) else await stack.uuid] *)
Definition stack_uuid (s : stack) : M json :=
  match s with
  | UUIDStack uuid => ret uuid
  | URIStack _ => uuid <- resolve k_uuid f_uuid s ;; ret (JStr uuid)
  end.

(** Modelled from the spec: the accessors [stack.location] and [stack.branch]
    (the classes are not part of the sources): the field if it is known, the
    lookup otherwise. *)
Definition stack_location (s : stack) : M string := resolve k_location f_location s.

Definition stack_branch (s : stack) : M string := resolve k_branch f_branch s.

(** Modelled from the spec: the constructor [UUIDStack(data)] (the classes
    are not part of the sources).  The reference takes the identifier from the
    payload, and knows the location and the branch when the payload supplies
    them. *)
Definition new_UUIDStack (data : json) : M stack :=
  uuid <- lift (getitem data "uuid") ;;
  set_memo (payload_known data) ;;;
  ret (UUIDStack uuid).

(** Modelled from the spec: the constructor
    [URIStack({'app': self, 'uri': stack_uri})] (the classes are not part of
    the sources).  Only the node address is known. *)
Definition new_URIStack (stack_uri : json) : M stack :=
  set_memo nothing_known ;;;
  ret (URIStack stack_uri).

(** *** [run_command] *)

(** Returns [process.returncode]: an integer after a normal exit, and after a
    timeout whatever the handle holds once [terminate] was attempted. *)
Definition run_command (argv : list string) (timeout : option Z) : M (option Z) :=
  let timeout := default run_command_timeout timeout in
  emit (Spawn argv) ;;;
  match communicate E argv timeout with
  | Exited rc => ret (Some rc)
  | TimedOut rc _ => emit Terminate ;;; ret rc
  end.

(** *** [ensure_stack_has_drc] *)

Definition ensure_stack_has_drc (uuid : json) : M bool :=
  escaped <- lift (escape_string uuid) ;;
  emit (Query (ensure_stack_has_drc_text (app_graph E) escaped)) ;;;
  G <- get_graph ;;
  ret (ask_has_drc G (text_of uuid)).

(** *** [create_drc_db] *)

Definition create_drc_db (drc : json) (s : stack) : M string :=
  n <- draw ;;
  let drc_uuid := uuid1_hex E n in
  stack_uuid <- stack_uuid s ;;
  let uri := drc_uri_of drc_uuid in
  e_uuid <- lift (escape_string (JStr drc_uuid)) ;;
  e_drc <- lift (escape_string drc) ;;
  let title := title_of (text_of stack_uuid) drc_uuid in
  e_title <- lift (escape_string (JStr title)) ;;
  emit (Update (create_drc_db_text (app_graph E) uri e_uuid e_drc e_title)) ;;;
  modify_graph (insert_manifest uri drc_uuid (text_of drc) title) ;;;
  ret uri.

(** *** [update_stack_drc] *)

Definition update_stack_drc (drc_uri : string) (s : stack) : M unit :=
  stack_uuid <- stack_uuid s ;;
  let stack_uri := stack_uri_of (text_of stack_uuid) in
  emit (Update (update_stack_drc_text (app_graph E) stack_uri drc_uri)) ;;;
  modify_graph (relink stack_uri drc_uri).

(** *** [docker_compose] *)

(** Returns the file's text, or [None] ([JNull]) when the stack already has a
    manifest or the clone did not return 0. *)
Definition docker_compose (s : stack) : M json :=
  uuid <- stack_uuid s ;;
  has_drc <- ensure_stack_has_drc uuid ;;
  if (has_drc : bool) then ret JNull
  else
    let project_path := project_path_of (text_of uuid) in
    location <- stack_location s ;;
    branch <- stack_branch s ;;
    cmd <- run_command (clone_argv location branch project_path) None ;;
    match cmd with
    | Some 0 =>
        let file := path_join project_path "docker-compose.yml" in
        emit (Open file) ;;;
        match read_file E file with
        | Some text => ret (JStr text)
        | None => raise FileNotFoundError
        end
    | _ => ret JNull
    end.

(** *** The two entry points *)

(** ["...{}...".format(stack.uuid)]: the identifier of a [UUIDStack]; for a
    [URIStack] the attribute is an awaitable, printed as such. *)
Definition format_uuid (s : stack) : string :=
  match s with
  | UUIDStack uuid => text_of uuid
  | URIStack _ => awaitable_repr E
  end.

Definition finish (m : M outcome) (σ : state) : outcome * state :=
  match m σ with
  | (Ok o, σ') => (o, σ')
  | (Raise e, σ') => (Unhandled e, σ')
  end.

(** [data.update({'app': self})]: only a dict has [update].  The entry it
    adds is the application object itself, which the model passes as [E]. *)
Definition dict_update_app (data : json) : M json :=
  match data with
  | JObj items => ret data
  | _ => raise AttributeError
  end.

Definition handle_fetch_drc (r : request) : state → outcome * state :=
  finish
    match r with
    | InvalidJson => ret (HTTPBadRequest "invalid json")
    | Json data =>
        data <- dict_update_app data ;;
        s <- new_UUIDStack data ;;
        drc <- docker_compose s ;;
        try_except_AttributeError
          (drc_uri <- create_drc_db drc s ;;
           update_stack_drc drc_uri s ;;;
           ret (Responded 200 (JsonBody success_envelope)))
          (ret (HTTPInternalServerError (conflict_envelope (format_uuid s))))
    end.

Definition handle_delta_update (r : request) : state → outcome * state :=
  finish
    match r with
    | InvalidJson => ret (HTTPBadRequest "invalid json")
    | Json data =>
        inserts <- lift (delta_inserts data) ;;
        stack_uri <- lift (stack_inserted inserts) ;;
        if truthy stack_uri then
          try_except_AttributeError
            (s <- new_URIStack stack_uri ;;
             drc <- docker_compose s ;;
             drc_uri <- create_drc_db drc s ;;
             update_stack_drc drc_uri s ;;;
             ret (Responded 200 (JsonBody success_envelope)))
            (ret (HTTPInternalServerError
                    (conflict_envelope (format_uuid (URIStack stack_uri)))))
        else ret (Responded 200 (TextBody "whatever"))
    end.

End Application.

(** ** What the claims speak about *)

(** A request body of the documented shape [{delta: [{inserts: [...]}]}]
    whose inserts are the triples [ts]. *)
Definition delta_body (data : json) (ts : list triple_in) : Prop :=
  ∃ elems, delta_inserts data = Ok (JArr elems)
           ∧ Forall2 (λ e t, as_triple e = Some t) elems ts.

(** The body the delta service sends for one batch of inserted triples. *)
Definition delta_json (ts : list triple_in) : json :=
  JObj [("delta", JArr [JObj [("inserts", JArr (map triple_json ts));
                              ("deletes", JArr [])]])].

Definition no_stack_insert (ts : list triple_in) : Prop :=
  Forall (λ t, qualifies t = false) ts.

Definition acknowledgement : outcome := Responded 200 (TextBody "whatever").
Definition success : outcome := Responded 200 (JsonBody success_envelope).

Definition is_conflict (o : outcome) : Prop :=
  ∃ detail, o = HTTPInternalServerError (conflict_envelope detail).

(** The answers Entry B is documented to give, all with status 200. *)
Definition answers_200 (o : outcome) : Prop :=
  ∃ body, o = Responded 200 body
          ∧ (body = JsonBody success_envelope
             ∨ (∃ detail, body = JsonBody (conflict_envelope detail))
             ∨ body = TextBody "whatever").

(** What an answer that reports a failure of the fetch step has to be at
    least: not the success answer, not the answer given for a stack that
    already has a manifest, and not an exception nobody handled. *)
Definition reports_failure (o : outcome) : Prop :=
  o ≠ success ∧ ¬ is_conflict o ∧ ∀ e, o ≠ Unhandled e.

(** The ways in which the change-notification entry point can end. *)
Definition delta_answers (o : outcome) : Prop :=
  o = Responded 200 (JsonBody success_envelope)
  ∨ o = Responded 200 (TextBody "whatever")
  ∨ (∃ detail, o = RaisedHTTP 500 (JsonBody (conflict_envelope detail)))
  ∨ (∃ e, e ≠ AttributeError ∧ o = Unhandled e).

(** The return code [run_command] hands back for an outcome of the child. *)
Definition returncode_of (c : cmd_outcome) : option Z :=
  match c with
  | Exited rc => Some rc
  | TimedOut rc _ => rc
  end.

(** The file [docker_compose] reads for the stack [uuid]. *)
Definition manifest_file (uuid : string) : string :=
  path_join (project_path_of uuid) "docker-compose.yml".

(** How the location and the branch of a direct request get resolved on the
    graph [G]: both from the payload, or by the one lookup keyed by the
    identifier, which then supplies whatever the payload had not supplied
    before it.  The result gives the location, the branch, what the reference
    knows afterwards and the lookups made. *)
Definition resolve_direct (E : env) (G : gset triple) (data : json) (uuid : string)
  : option (string * string * known * list event) :=
  let s := UUIDStack (JStr uuid) in
  match str_field data "location", str_field data "branch" with
  | Some l, Some b => Some (l, b, payload_known data, [])
  | Some l, None =>
      match lookup E G s with
      | Some f => Some (l, f_branch f, all_known f, [Lookup s])
      | None => None
      end
  | None, _ =>
      match lookup E G s with
      | Some f => Some (f_location f, f_branch f, all_known f, [Lookup s])
      | None => None
      end
  end.

(** What [run_command] adds to the trace for an outcome of the child. *)
Definition command_events (argv : list string) (c : cmd_outcome) : list event :=
  Spawn argv :: match c with
                | Exited _ => []
                | TimedOut _ _ => [Terminate]
                end.

Definition updates (tr : list event) : list string :=
  omap (λ ev, match ev with Update text => Some text | _ => None end) tr.

(** [I] holds of the graph after [m] whenever it held before. *)
Definition preserves (I : gset triple → Prop) {T} (m : M T) : Prop :=
  ∀ σ, I (graph σ) → I (graph (m σ).2).

(** [P] holds of the state after [m] whenever it held before. *)
Definition keeps (P : state → Prop) {T} (m : M T) : Prop :=
  ∀ σ, P σ → P (m σ).2.

(** Nothing was written or drawn since the graph was [G], the updates sent
    were [sent] and [n] identifiers had been drawn. *)
Definition quiet (G : gset triple) (sent : list string) (n : nat) (σ : state) : Prop :=
  graph σ = G ∧ updates (trace σ) = sent ∧ drawn σ = n.

(** The two updates of one provisioning, in the order they are sent. *)
Definition provisioning_updates (E : env) (u drc_uuid text : string) : list string :=
  [ create_drc_db_text (app_graph E) (drc_uri_of drc_uuid) (escape_text drc_uuid)
      (escape_text text) (escape_text (title_of u drc_uuid));
    update_stack_drc_text (app_graph E) (stack_uri_of u) (drc_uri_of drc_uuid) ].

(** The graph after one provisioning of the stack [u] with the manifest
    [text] under the fresh identifier [drc_uuid]. *)
Definition provisioned (u drc_uuid text : string) (G : gset triple) : gset triple :=
  relink (stack_uri_of u) (drc_uri_of drc_uuid)
    (insert_manifest (drc_uri_of drc_uuid) drc_uuid text (title_of u drc_uuid) G).

(** What the filter needs of an element whose object is not the Stack type:
    the object's value, and nothing else. *)
Definition other_object (elem : json) : Prop :=
  ∃ o v, getitem elem "o" = Ok o ∧ getitem o "value" = Ok v
         ∧ eq_str v STACK_TYPE = false.

(** What it needs of an element whose object is the Stack type and whose
    predicate is not rdf:type: the two values, and no subject. *)
Definition other_predicate (elem : json) : Prop :=
  ∃ o v p w, getitem elem "o" = Ok o ∧ getitem o "value" = Ok v
             ∧ eq_str v STACK_TYPE = true
             ∧ getitem elem "p" = Ok p ∧ getitem p "value" = Ok w
             ∧ eq_str w RDF_TYPE = false.

(** ** Reading the relink statement back from its text *)

(** The characters an IRI reference [<...>] cannot hold: controls and the
    blank, and the ten characters the SPARQL grammar excludes. *)
Definition forbidden_in_iri (c : ascii) : bool :=
  (nat_of_ascii c <=? 32)%nat
  || existsb (Ascii.eqb c)
       ["<"; ">"; "034"; "{"; "}"; "|"; "^"; "`"; "092"]%char.

(** A string that can stand between [<] and [>] as it is. *)
Fixpoint iri_safe (s : string) : bool :=
  match s with
  | EmptyString => true
  | String c rest => negb (forbidden_in_iri c) && iri_safe rest
  end.

(** [c] does not occur in [s]. *)
Fixpoint absent (c : ascii) (s : string) : bool :=
  match s with
  | EmptyString => true
  | String a rest => negb (Ascii.eqb a c) && absent c rest
  end.

(** [s] without the prefix [p], when it starts with it. *)
Fixpoint strip_prefix (p s : string) : option string :=
  match p with
  | EmptyString => Some s
  | String a p' =>
      match s with
      | EmptyString => None
      | String b s' => if Ascii.eqb a b then strip_prefix p' s' else None
      end
  end.

(** [s] up to the first [c], and what follows that [c]. *)
Fixpoint until (c : ascii) (s : string) : option (string * string) :=
  match s with
  | EmptyString => None
  | String a rest =>
      if Ascii.eqb a c then Some (EmptyString, rest)
      else match until c rest with
           | Some (before, after) => Some (String a before, after)
           | None => None
           end
  end.

(** The lines of a text. *)
Fixpoint split_lines (s : string) : list string :=
  match s with
  | EmptyString => [EmptyString]
  | String a rest =>
      if Ascii.eqb a "010"%char then EmptyString :: split_lines rest
      else match split_lines rest with
           | line :: more => String a line :: more
           | [] => [String a EmptyString]
           end
  end.

(** [GRAPH <g> {] *)
Definition read_graph (line : string) : option string :=
  rest ← strip_prefix "GRAPH <" line;
  '(g, rest) ← until ">" rest;
  if String.eqb rest " {" && iri_safe g then Some g else None.

(** [<s> swarmui:dockerComposeFile ?s.] *)
Definition read_pattern (line : string) : option string :=
  rest ← strip_prefix "<" line;
  '(s, rest) ← until ">" rest;
  if String.eqb rest " swarmui:dockerComposeFile ?s." && iri_safe s
  then Some s else None.

(** [<s> swarmui:dockerComposeFile <d>.] *)
Definition read_edge (line : string) : option (string * string) :=
  rest ← strip_prefix "<" line;
  '(s, rest) ← until ">" rest;
  rest ← strip_prefix " swarmui:dockerComposeFile <" rest;
  '(d, rest) ← until ">" rest;
  if String.eqb rest "." && iri_safe s && iri_safe d then Some (s, d) else None.

(** Reads a text as the statement of [update_stack_drc]: under the prefix
    [swarmui:], delete every [dockerComposeFile] edge of one subject in one
    graph, then insert one such edge of the same subject in the same graph.
    The result names the graph, the subject and the object of the new edge;
    a text of any other shape is not read. *)
Definition read_relink (text : string) : option (string * string * string) :=
  match split_lines text with
  | [ prefix; delete; g1; p1; c1; c2; where_; g2; optional; p2; c3; c4; c5;
      insert; open; g3; e; c6; c7 ] =>
      if forallb (λ lw, String.eqb lw.1 lw.2)
           [ (prefix, "PREFIX swarmui: <http://swarmui.semte.ch/vocabularies/core/>");
             (delete, "DELETE {"); (c1, "}"); (c2, "}"); (where_, "WHERE {");
             (optional, "OPTIONAL {"); (c3, "}"); (c4, "}"); (c5, "};");
             (insert, "INSERT DATA"); (open, "{"); (c6, "}"); (c7, "}") ]
      then
        g ← read_graph g1;
        g' ← read_graph g2;
        g'' ← read_graph g3;
        s ← read_pattern p1;
        s' ← read_pattern p2;
        '(s'', d) ← read_edge e;
        if String.eqb g g' && String.eqb g g''
           && String.eqb s s' && String.eqb s s''
        then Some (g, s, d) else None
      else None
  | _ => None
  end.

(** What a store does with a text that reads as a relink statement: the
    edges of the subject named in the text go, the edge named in the text is
    added. *)
Definition relink_meaning (text : string) (G : gset triple) : option (gset triple) :=
  '(g, s, d) ← read_relink text;
  Some (filter (λ t, ¬ (subj t = Iri s ∧ pred t
                        = Iri "http://swarmui.semte.ch/vocabularies/core/dockerComposeFile")) G
        ∪ {[ (Iri s, Iri "http://swarmui.semte.ch/vocabularies/core/dockerComposeFile",
              Iri d) ]}).


(** The uuid a direct request names, when it names one as a string. *)
Definition request_uuid (r : request) : option string :=
  match r with
  | Json (JObj items) =>
      match dict_get items "uuid" with
      | Some (JStr u) => Some u
      | _ => None
      end
  | _ => None
  end.

(** An environment whose identifiers can stand in an IRI reference: the
    graph is [<g>], the identifiers drawn and the uuids found by the lookup
    are safe. *)
Definition safe_world (E : env) (g : string) : Prop :=
  app_graph E = "<" ++ g ++ ">"
  ∧ iri_safe g = true
  ∧ (∀ n, iri_safe (uuid1_hex E n) = true)
  ∧ (∀ G s f, lookup E G s = Some f → iri_safe (f_uuid f) = true).

(** A direct request that names no uuid, or a safe one. *)
Definition safe_request (r : request) : Prop :=
  ∀ u, request_uuid r = Some u → iri_safe u = true.

(** ** A concrete world *)

Module Example.

Definition stack_node : triple := (Iri (stack_uri_of "abc123"), MU_UUID, Lit "abc123").

Definition old_edge : triple :=
  (Iri (stack_uri_of "abc123"), DOCKER_COMPOSE_FILE, Iri (drc_uri_of "0d15ea5e")).

Definition unlinked : gset triple := {[ stack_node ]}.
Definition linked : gset triple := {[ stack_node; old_edge ]}.

Definition fields : stack_fields :=
  StackFields "abc123" "https://example.test/r.git" "main".

Definition compose_text : string := "version: '3'".

(** A world in which every child process ends as [c] and the manifest file
    reads as [file]. *)
Definition world (c : cmd_outcome) (file : option string) : env :=
  Env "<http://mu.semte.ch/application>"
      (λ n, String.concat "" (replicate (S n) "c0ffee"))
      (λ _ _, Some fields)
      (λ _ _, c)
      (λ _, file)
      "<coroutine object>".

Definition fetchable : env := world (Exited 0) (Some compose_text).
Definition failing : env := world (Exited 128) None.
Definition slow : env := world (TimedOut None false) None.
Definition empty_repository : env := world (Exited 0) None.

Definition start (G : gset triple) : state := State G 0 nothing_known [].

Definition direct_items : list (string * json) :=
  [("uuid", JStr "abc123");
   ("location", JStr "https://example.test/r.git");
   ("branch", JStr "main")].

Definition direct : request := Json (JObj direct_items).

Definition stack_triple (s : string) : triple_in := TripleIn s RDF_TYPE STACK_TYPE.
Definition other_triple : triple_in :=
  TripleIn "http://example.test/thing" "http://purl.org/dc/terms/title" "a title".

Definition inserted : list triple_in :=
  [other_triple; stack_triple (stack_uri_of "abc123")].

Definition notification : request := Json (delta_json inserted).

(** A uuid that closes the IRI it is put into and opens another one. *)
Definition crafted_uuid : string :=
  "x> swarmui:dockerComposeFile <http://example.test/e>. "
  ++ "<http://swarm-ui.big-data-europe.eu/resources/stacks/victim".

Definition crafted_items : list (string * json) :=
  [("uuid", JStr crafted_uuid);
   ("location", JStr "https://example.test/r.git");
   ("branch", JStr "main")].

Definition crafted : request := Json (JObj crafted_items).

End Example.

(** ** More of the concrete world *)

Module Scenario.

Import Example.

(** A notification for a stack whose node is not at the address derived
    from its uuid. *)
Definition elsewhere : list triple_in :=
  [other_triple; stack_triple "http://example.test/stacks/1"].

(** A notification whose Stack insert has an empty subject, before one that
    names a stack. *)
Definition nameless : list triple_in :=
  [stack_triple ""; stack_triple (stack_uri_of "abc123")].

(** A batch with a Stack insert followed by an element that is no triple. *)
Definition broken_batch : json :=
  JObj [("delta", JArr [JObj [("inserts",
           JArr (map triple_json [stack_triple "S1"] ++ [JObj []]))]])].

(** Elements that lack a subject, the second also a predicate. *)
Definition partial_elements : list json :=
  [ JObj [("o", term_json "uri" STACK_TYPE);
          ("p", term_json "uri" "http://purl.org/dc/terms/title")];
    JObj [("o", term_json "literal" "a title")] ].

(** Two bodies with the same first delta. *)
Definition one_delta : list (string * json) :=
  [("delta", JArr [JObj [("inserts", JArr (map triple_json [other_triple]))]])].

Definition two_deltas : list (string * json) :=
  [("delta", JArr [JObj [("inserts", JArr (map triple_json [other_triple]))];
                   JObj [("inserts", JArr (map triple_json inserted))]])].

End Scenario.

(** ** Proof engineering *)

Arguments ask_has_drc : simpl never.
Arguments insert_manifest : simpl never.
Arguments relink : simpl never.
Arguments ensure_stack_has_drc_text : simpl never.
Arguments create_drc_db_text : simpl never.
Arguments update_stack_drc_text : simpl never.
Arguments escape_text : simpl never.
Arguments path_join : simpl never.
Arguments stack_uri_of : simpl never.
Arguments drc_uri_of : simpl never.
Arguments title_of : simpl never.
Arguments project_path_of : simpl never.
Arguments clone_argv : simpl never.
Arguments run_command_timeout : simpl never.
Arguments stack_inserted : simpl never.
Arguments delta_inserts : simpl never.
Arguments conflict_envelope : simpl never.
Arguments success_envelope : simpl never.

(** Runs a handler symbolically: the monad is unfolded, and every oracle
    answer fixed by a hypothesis is used where the run consults it. *)
Ltac unfold_run :=
  unfold handle_fetch_drc, handle_delta_update, finish, new_UUIDStack,
    new_URIStack, docker_compose, create_drc_db, update_stack_drc,
    try_except_AttributeError, ensure_stack_has_drc, stack_location,
    stack_branch, stack_uuid, resolve, run_command, dict_update_app,
    format_uuid, HTTPInternalServerError, HTTPBadRequest,
    bind, ret, lift, raise, emit, get_graph, get_memo, set_memo,
    modify_graph, draw.

Ltac use_answers :=
  repeat match goal with
         | H : ?l = _ |- context [?l] => rewrite H; cbn
         end.

Ltac exec := unfold_run; cbn; use_answers.

Ltac flatten_trace := rewrite <- ?app_assoc; cbn [app].

(** ** The change filter *)

Section ChangeFilter.

Local Open Scope res_scope.

Lemma as_triple_inv elem t :
  as_triple elem = Some t →
  ∃ s p o, getitem elem "s" = Ok s ∧ getitem s "value" = Ok (JStr (subject t))
         ∧ getitem elem "p" = Ok p ∧ getitem p "value" = Ok (JStr (predicate t))
         ∧ getitem elem "o" = Ok o ∧ getitem o "value" = Ok (JStr (object t)).
Proof.
  unfold as_triple, field_value, value_of. intros H.
  destruct (getitem elem "s") as [s|] eqn:Hs; [|done].
  destruct (getitem s "value") as [[]|] eqn:Hsv; try done.
  destruct (getitem elem "p") as [p|] eqn:Hp; [|done].
  destruct (getitem p "value") as [[]|] eqn:Hpv; try done.
  destruct (getitem elem "o") as [o|] eqn:Ho; [|done].
  destruct (getitem o "value") as [[]|] eqn:Hov; try done.
  injection H as <-. exists s, p, o. done.
Qed.

Lemma as_triple_json t : as_triple (triple_json t) = Some t.
Proof. by destruct t. Qed.

Lemma delta_json_body ts : delta_body (delta_json ts) ts.
Proof.
  exists (map triple_json ts). split; [done|].
  induction ts as [|t ts IH]; constructor; [apply as_triple_json | done].
Qed.

(** One step of the comprehension on a well-shaped element. *)
Lemma comprehension_cons elem t rest :
  as_triple elem = Some t →
  stack_inserted_comprehension (elem :: rest) =
    if qualifies t
    then tl <- stack_inserted_comprehension rest ;; Ok (JStr (subject t) :: tl)
    else stack_inserted_comprehension rest.
Proof.
  intros (s & p & o & Hs & Hsv & Hp & Hpv & Ho & Hov)%as_triple_inv.
  cbn [stack_inserted_comprehension]. rewrite Ho. cbn [rbind]. rewrite Hov.
  cbn [rbind eq_str]. unfold qualifies.
  destruct (String.eqb (object t) STACK_TYPE).
  - rewrite Hp. cbn [rbind]. rewrite Hpv. cbn [rbind eq_str].
    destruct (String.eqb (predicate t) RDF_TYPE); cbn [andb].
    + rewrite Hs. cbn [rbind]. by rewrite Hsv.
    + done.
  - cbn [rbind]. by rewrite andb_false_r.
Qed.

(** On well-shaped elements the comprehension is the filter of the source:
    the subjects of the qualifying triples, in input order. *)
Lemma comprehension_filter elems ts :
  Forall2 (λ e t, as_triple e = Some t) elems ts →
  stack_inserted_comprehension elems
  = Ok (map (λ t, JStr (subject t)) (List.filter qualifies ts)).
Proof.
  induction 1 as [|e t elems ts He _ IH]; [done|].
  rewrite (comprehension_cons _ _ _ He), IH. cbn [List.filter].
  by destruct (qualifies t).
Qed.

Lemma filter_none ts : no_stack_insert ts → List.filter qualifies ts = [].
Proof.
  induction 1 as [|t ts Ht _ IH]; [done|]. cbn. by rewrite Ht.
Qed.

Lemma filter_first pre t post :
  no_stack_insert pre → qualifies t = true →
  List.filter qualifies (pre ++ t :: post)%list = t :: List.filter qualifies post.
Proof.
  intros Hpre Ht. rewrite List.filter_app, (filter_none _ Hpre). cbn. by rewrite Ht.
Qed.

(** C3. On a sequence of inserted triples the change filter returns the
    subject of the first triple, in input order, whose predicate is rdf:type
    and whose object is the Stack type, whatever else the sequence holds; it
    returns None when no triple qualifies. *)
Theorem stack_inserted_first_qualifying elems ts :
  Forall2 (λ e t, as_triple e = Some t) elems ts →
  (∀ pre t post,
      ts = (pre ++ t :: post)%list → no_stack_insert pre → qualifies t = true →
      stack_inserted (JArr elems) = Ok (JStr (subject t)))
  ∧ (no_stack_insert ts → stack_inserted (JArr elems) = Ok JNull).
Proof.
  intros Hshape. unfold stack_inserted. cbn [iterate rbind].
  rewrite (comprehension_filter _ _ Hshape). split.
  - intros pre t post -> Hpre Ht. by rewrite filter_first.
  - intros Hnone. by rewrite filter_none.
Qed.

End ChangeFilter.

(** ** The change-notification entry point, before any stack is found *)

Section DeltaEntry.

Variable E : env.

(** A body from which [data['delta'][0]['inserts']] cannot be read makes the
    handler end on that exception, with nothing done. *)
Lemma handle_delta_update_no_inserts data e σ :
  delta_inserts data = Raise e →
  handle_delta_update E (Json data) σ = (Unhandled e, σ).
Proof.
  intros H. unfold handle_delta_update, finish, bind, lift. by rewrite H.
Qed.

(** When the filter finds nothing to act on, the handler acknowledges and
    leaves the state as it was. *)
Lemma handle_delta_update_inert data inserts v σ :
  delta_inserts data = Ok inserts →
  stack_inserted inserts = Ok v →
  truthy v = false →
  handle_delta_update E (Json data) σ = (acknowledgement, σ).
Proof.
  intros Hd Hs Hv. unfold handle_delta_update, finish, bind, lift.
  by rewrite Hd, Hs, Hv.
Qed.

(** C9. For a change-notification body whose inserted triples hold no
    qualifying Stack insert, the handler answers with the plain
    acknowledgement, which is no error, and the state after it is the state
    before it: the trace gained no query, no lookup, no child process and no
    update, and the graph is unchanged. *)
Theorem handle_delta_update_without_stack data ts σ :
  delta_body data ts →
  no_stack_insert ts →
  handle_delta_update E (Json data) σ = (Responded 200 (TextBody "whatever"), σ)
  ∧ trace (handle_delta_update E (Json data) σ).2 = trace σ
  ∧ graph (handle_delta_update E (Json data) σ).2 = graph σ.
Proof.
  intros (elems & Hd & Hshape) Hnone.
  destruct (stack_inserted_first_qualifying elems ts Hshape) as [_ Hnull].
  rewrite (handle_delta_update_inert data (JArr elems) JNull σ Hd (Hnull Hnone) eq_refl).
  done.
Qed.

(** C10. Some syntactically valid JSON bodies get none of the documented
    answers: when the body is an object without the key delta the handler
    ends on an uncaught KeyError, when delta is the empty list on an uncaught
    IndexError, and when the first delta is an object without the key inserts
    on an uncaught KeyError; in each case nothing else has happened. *)
Theorem handle_delta_update_malformed items σ :
  (dict_get items "delta" = None →
   handle_delta_update E (Json (JObj items)) σ = (Unhandled KeyError, σ))
  ∧ (dict_get items "delta" = Some (JArr []) →
     handle_delta_update E (Json (JObj items)) σ = (Unhandled IndexError, σ))
  ∧ (∀ first rest,
       dict_get items "delta" = Some (JArr (JObj first :: rest)) →
       dict_get first "inserts" = None →
       handle_delta_update E (Json (JObj items)) σ = (Unhandled KeyError, σ)).
Proof.
  repeat split.
  - intros H. apply handle_delta_update_no_inserts.
    unfold delta_inserts. cbn. by rewrite H.
  - intros H. apply handle_delta_update_no_inserts.
    unfold delta_inserts. cbn. by rewrite H.
  - intros first rest H Hi. apply handle_delta_update_no_inserts.
    unfold delta_inserts. cbn. rewrite H. cbn. by rewrite Hi.
Qed.

End DeltaEntry.

(** ** The triple store: what the three statements do *)

Section Store.

Implicit Types (G : gset triple) (s x : term) (t : triple).

Lemma ask_has_drc_spec G uuid :
  ask_has_drc G uuid = true
  ↔ ∃ s x, (s, MU_UUID, Lit uuid) ∈ G ∧ (s, DOCKER_COMPOSE_FILE, x) ∈ G.
Proof.
  unfold ask_has_drc. rewrite bool_decide_eq_true. unfold set_Exists, is_edge_of.
  split.
  - intros ([[s p] o] & Hin & Hp & Ho & [[s' p'] x] & Hin' & Hs & Hp').
    cbn in *. subst. by exists s, x.
  - intros (s & x & Hu & He). exists (s, MU_UUID, Lit uuid).
    split_and!; try done. by exists (s, DOCKER_COMPOSE_FILE, x).
Qed.

Lemma ask_has_drc_false G uuid s :
  ask_has_drc G uuid = false → (s, MU_UUID, Lit uuid) ∈ G →
  ∀ x, (s, DOCKER_COMPOSE_FILE, x) ∉ G.
Proof.
  intros Hask Hs x Hx.
  assert (ask_has_drc G uuid = true) as Ht by (apply ask_has_drc_spec; eauto).
  congruence.
Qed.

Lemma elem_of_edges_of s x G : x ∈ edges_of s G ↔ (s, DOCKER_COMPOSE_FILE, x) ∈ G.
Proof.
  unfold edges_of, is_edge_of. rewrite elem_of_map. split.
  - intros ([[s' p] o] & -> & [[Hs Hp] Hin]%elem_of_filter). cbn in *. by subst.
  - intros Hin. exists (s, DOCKER_COMPOSE_FILE, x).
    split; [done|]. by apply elem_of_filter.
Qed.

Lemma elem_of_manifests s G : s ∈ manifests G ↔ (s, IS_A, DOCKER_COMPOSE) ∈ G.
Proof.
  unfold manifests. rewrite elem_of_map. split.
  - intros ([[s' p] o] & -> & [[Hp Ho] Hin]%elem_of_filter). cbn in *. by subst.
  - intros Hin. exists (s, IS_A, DOCKER_COMPOSE). split; [done|]. by apply elem_of_filter.
Qed.

Lemma elem_of_relink t stack_uri drc_uri G :
  t ∈ relink stack_uri drc_uri G
  ↔ (t ∈ G ∧ ¬ is_edge_of (Iri stack_uri) t)
    ∨ t = (Iri stack_uri, DOCKER_COMPOSE_FILE, Iri drc_uri).
Proof.
  unfold relink. rewrite elem_of_union, elem_of_filter, elem_of_singleton. tauto.
Qed.

Lemma elem_of_insert_manifest t uri drc_uuid drc title G :
  t ∈ insert_manifest uri drc_uuid drc title G
  ↔ t ∈ G ∨ t ∈ manifest_triples uri drc_uuid drc title.
Proof. unfold insert_manifest. apply elem_of_union. Qed.

Lemma elem_of_manifest_triples t uri drc_uuid drc title :
  t ∈ manifest_triples uri drc_uuid drc title
  ↔ t = (Iri uri, IS_A, DOCKER_COMPOSE) ∨ t = (Iri uri, MU_UUID, Lit drc_uuid)
    ∨ t = (Iri uri, TEXT, Lit drc) ∨ t = (Iri uri, TITLE, Lit title).
Proof.
  unfold manifest_triples. rewrite !elem_of_union, !elem_of_singleton. tauto.
Qed.

(** Relinking leaves the stack with the new edge and no other. *)
Lemma edges_of_relink stack_uri drc_uri G :
  edges_of (Iri stack_uri) (relink stack_uri drc_uri G) = {[ Iri drc_uri ]}.
Proof.
  apply set_eq. intros x.
  rewrite elem_of_edges_of, elem_of_relink, elem_of_singleton. unfold is_edge_of.
  split.
  - intros [[_ Hn] | Heq]; [by destruct Hn | by injection Heq].
  - intros ->. by right.
Qed.

(** Relinking touches no other node's edges. *)
Lemma edges_of_relink_other s stack_uri drc_uri G :
  s ≠ Iri stack_uri →
  edges_of s (relink stack_uri drc_uri G) = edges_of s G.
Proof.
  intros Hne. apply set_eq. intros x.
  rewrite !elem_of_edges_of, elem_of_relink. unfold is_edge_of. split.
  - intros [[Hin _] | Heq]; [done | injection Heq as Hs Hx; congruence].
  - intros Hin. left. split; [done|]. cbn. by intros [? _].
Qed.


(** Persisting a manifest adds no edge. *)
Lemma edges_of_insert_manifest s uri drc_uuid drc title G :
  edges_of s (insert_manifest uri drc_uuid drc title G) = edges_of s G.
Proof.
  apply set_eq. intros x.
  rewrite !elem_of_edges_of, elem_of_insert_manifest, elem_of_manifest_triples.
  split; [|tauto]. by intros [? | [? | [? | [? | ?]]]].
Qed.


(** Persisting a manifest adds that one manifest. *)
Lemma manifests_insert_manifest uri drc_uuid drc title G :
  manifests (insert_manifest uri drc_uuid drc title G) = manifests G ∪ {[ Iri uri ]}.
Proof.
  apply set_eq. intros s.
  rewrite elem_of_union, elem_of_singleton, !elem_of_manifests,
    elem_of_insert_manifest, elem_of_manifest_triples.
  split.
  - intros [? | [Heq | [? | [? | ?]]]]; try done; [by left | right; by injection Heq].
  - intros [? | ->]; [by left | right; by left].
Qed.

(** Relinking adds and removes no manifest. *)
Lemma manifests_relink stack_uri drc_uri G :
  manifests (relink stack_uri drc_uri G) = manifests G.
Proof.
  apply set_eq. intros s.
  rewrite !elem_of_manifests, elem_of_relink. unfold is_edge_of. split.
  - by intros [[? _] | ?].
  - intros Hin. left. split; [done|]. by intros [_ ?].
Qed.

(** Neither statement removes a node's identifier. *)
Lemma uuid_triple_kept s uuid uri drc_uuid drc title stack_uri G :
  (s, MU_UUID, Lit uuid) ∈ G →
  (s, MU_UUID, Lit uuid) ∈ relink stack_uri uri (insert_manifest uri drc_uuid drc title G).
Proof.
  intros Hin. apply elem_of_relink. left. split.
  - apply elem_of_insert_manifest. by left.
  - unfold is_edge_of. by intros [_ ?].
Qed.

End Store.

(** ** The provisioning workflow *)

Section Workflow.

Variable E : env.

(** *** The direct entry point, path by path *)

Section Direct.

Variables (items : list (string * json)) (u : string) (σ : state).
Hypothesis Huuid : dict_get items "uuid" = Some (JStr u).

Let query : event := Query (ensure_stack_has_drc_text (app_graph E) (escape_text u)).

(** The stack already has a manifest. *)
Lemma fetch_drc_already_linked :
  ask_has_drc (graph σ) u = true →
  handle_fetch_drc E (Json (JObj items)) σ
  = (HTTPInternalServerError (conflict_envelope u),
     State (graph σ) (S (drawn σ)) (payload_known (JObj items)) (trace σ ++ [query])).
Proof. intros Hask. exec. done. Qed.

Variables (location branch : string) (m : known) (lookups : list event).
Hypothesis Hresolve :
  resolve_direct E (graph σ) (JObj items) u = Some (location, branch, m, lookups).

Let argv : list string := clone_argv location branch (project_path_of u).

(** Splits on how the location and the branch were resolved. *)
Ltac resolved :=
  unfold resolve_direct, payload_known, str_field in Hresolve; subst argv;
  unfold_run; unfold payload_known, str_field; cbn in *; use_answers;
  repeat match type of Hresolve with
         | context [match ?x with _ => _ end] => destruct x eqn:?; cbn in *
         end;
  simplify_eq; cbn; use_answers.

(** The clone did not return 0. *)
Lemma fetch_drc_clone_failed c :
  ask_has_drc (graph σ) u = false →
  communicate E argv run_command_timeout = c →
  returncode_of c ≠ Some 0 →
  handle_fetch_drc E (Json (JObj items)) σ
  = (HTTPInternalServerError (conflict_envelope u),
     State (graph σ) (S (drawn σ)) m
       (trace σ ++ [query] ++ lookups ++ command_events argv c)).
Proof.
  intros Hask Hc Hrc.
  destruct c as [rc | [rc|] b]; cbn in Hrc; resolved; flatten_trace; try done;
    destruct rc; by flatten_trace.
Qed.

(** The clone returned 0 and the workspace has no manifest file. *)
Lemma fetch_drc_no_file :
  ask_has_drc (graph σ) u = false →
  communicate E argv run_command_timeout = Exited 0 →
  read_file E (manifest_file u) = None →
  handle_fetch_drc E (Json (JObj items)) σ
  = (Unhandled FileNotFoundError,
     State (graph σ) (drawn σ) m
       (trace σ ++ [query] ++ lookups ++ [Spawn argv; Open (manifest_file u)])).
Proof.
  intros Hask Hc Hr. unfold manifest_file in *. resolved; by flatten_trace.
Qed.

(** The same, seen from [docker_compose]: the exception is its own. *)
Lemma docker_compose_no_file :
  ask_has_drc (graph σ) u = false →
  communicate E argv run_command_timeout = Exited 0 →
  read_file E (manifest_file u) = None →
  (docker_compose E (UUIDStack (JStr u)) (with_memo (payload_known (JObj items)) σ)).1
  = Raise FileNotFoundError.
Proof.
  intros Hask Hc Hr. unfold manifest_file, with_memo in *. by resolved.
Qed.

(** The clone returned 0 and the manifest file was read. *)
Lemma fetch_drc_links text :
  ask_has_drc (graph σ) u = false →
  communicate E argv run_command_timeout = Exited 0 →
  read_file E (manifest_file u) = Some text →
  let drc_uuid := uuid1_hex E (drawn σ) in
  let uri := drc_uri_of drc_uuid in
  handle_fetch_drc E (Json (JObj items)) σ
  = (success,
     State (relink (stack_uri_of u) uri
              (insert_manifest uri drc_uuid text (title_of u drc_uuid) (graph σ)))
       (S (drawn σ)) m
       (trace σ ++ [query] ++ lookups
        ++ [Spawn argv;
            Open (manifest_file u);
            Update (create_drc_db_text (app_graph E) uri (escape_text drc_uuid)
                      (escape_text text) (escape_text (title_of u drc_uuid)));
            Update (update_stack_drc_text (app_graph E) (stack_uri_of u) uri)])).
Proof.
  intros Hask Hc Hr. unfold manifest_file in *. resolved; by flatten_trace.
Qed.

End Direct.

(** C1. Provisioning twice in a row.  Take a stack that is recorded in the
    graph under its address, has no manifest linked, and whose repository can
    be fetched and holds the manifest file.  The first direct request answers
    with the success envelope, the second with the conflict envelope, and
    after the second the stack has exactly one edge, to the manifest made by
    the first request, which is the only manifest the two requests added. *)
Theorem ensure_and_link_twice items u σ location branch m lookups text :
  dict_get items "uuid" = Some (JStr u) →
  (Iri (stack_uri_of u), MU_UUID, Lit u) ∈ graph σ →
  ask_has_drc (graph σ) u = false →
  resolve_direct E (graph σ) (JObj items) u = Some (location, branch, m, lookups) →
  communicate E (clone_argv location branch (project_path_of u))
    run_command_timeout = Exited 0 →
  read_file E (manifest_file u) = Some text →
  let first := handle_fetch_drc E (Json (JObj items)) σ in
  let second := handle_fetch_drc E (Json (JObj items)) first.2 in
  let uri := Iri (drc_uri_of (uuid1_hex E (drawn σ))) in
  first.1 = Responded 200 (JsonBody success_envelope)
  ∧ second.1 = RaisedHTTP 500 (JsonBody (conflict_envelope u))
  ∧ edges_of (Iri (stack_uri_of u)) (graph second.2) = {[ uri ]}
  ∧ size (edges_of (Iri (stack_uri_of u)) (graph second.2)) = 1%nat
  ∧ manifests (graph second.2) = manifests (graph σ) ∪ {[ uri ]}
  ∧ (uri ∉ manifests (graph σ) →
     size (manifests (graph second.2)) = S (size (manifests (graph σ)))).
Proof.
  intros Hu Hnode Hask Hres Hc Hr first second uri.
  subst first second.
  rewrite (fetch_drc_links items u σ Hu _ _ _ _ Hres text Hask Hc Hr). cbn [fst snd].
  set (drc_uuid := uuid1_hex E (drawn σ)).
  set (G1 := relink _ _ _).
  set (σ1 := State G1 _ _ _).
  assert (ask_has_drc (graph σ1) u = true) as Hlinked.
  { apply ask_has_drc_spec. exists (Iri (stack_uri_of u)), uri. split.
    - by apply uuid_triple_kept.
    - apply elem_of_relink. by right. }
  rewrite (fetch_drc_already_linked items u σ1 Hu Hlinked). cbn [fst snd graph σ1].
  assert (edges_of (Iri (stack_uri_of u)) G1 = {[ uri ]}) as Hedges
    by apply edges_of_relink.
  assert (manifests G1 = manifests (graph σ) ∪ {[ uri ]}) as Hman.
  { subst G1. by rewrite manifests_relink, manifests_insert_manifest. }
  split_and!; try done.
  - rewrite Hedges. apply size_singleton.
  - intros Hfresh. rewrite Hman, size_union by (by apply disjoint_singleton_r).
    rewrite size_singleton. lia.
Qed.

Lemma updates_app tr tr' : updates (tr ++ tr') = (updates tr ++ updates tr')%list.
Proof. apply omap_app. Qed.

(** Resolving the fields of a direct request sends no update. *)
Lemma resolve_direct_updates G data u location branch m lookups :
  resolve_direct E G data u = Some (location, branch, m, lookups) →
  updates lookups = [].
Proof.
  unfold resolve_direct. intros H.
  repeat case_match; by simplify_eq.
Qed.

(** C2, as the code has it.  When the clone of a direct request exits with a
    status other than 0, the request does not get the success answer and
    nothing is written to the graph: the graph after the request is the graph
    before it, and the request sent no update, so no manifest was inserted and
    no edge created or deleted. *)
Theorem failed_fetch_writes_nothing items u σ location branch m lookups rc :
  dict_get items "uuid" = Some (JStr u) →
  ask_has_drc (graph σ) u = false →
  resolve_direct E (graph σ) (JObj items) u = Some (location, branch, m, lookups) →
  communicate E (clone_argv location branch (project_path_of u))
    run_command_timeout = Exited rc →
  rc ≠ 0 →
  let after := handle_fetch_drc E (Json (JObj items)) σ in
  after.1 ≠ success
  ∧ graph after.2 = graph σ
  ∧ updates (trace after.2) = updates (trace σ)
  ∧ manifests (graph after.2) = manifests (graph σ)
  ∧ ∀ s, edges_of s (graph after.2) = edges_of s (graph σ).
Proof.
  intros Hu Hask Hres Hc Hrc after. subst after.
  rewrite (fetch_drc_clone_failed items u σ Hu _ _ _ _ Hres (Exited rc) Hask Hc)
    by (cbn; congruence).
  cbn [fst snd graph trace]. split_and!; try done.
  rewrite !updates_app, (resolve_direct_updates _ _ _ _ _ _ _ Hres).
  cbn. by rewrite app_nil_r.
Qed.

(** C6, as the code has it.  When the clone of a direct request returned 0
    and docker-compose.yml is not in the workspace, reading it raises
    FileNotFoundError out of [docker_compose]: the absent file is not turned
    into an absent manifest body.  The handler does not catch the exception,
    and nothing is written to the graph. *)
Theorem missing_manifest_raises items u σ location branch m lookups :
  dict_get items "uuid" = Some (JStr u) →
  ask_has_drc (graph σ) u = false →
  resolve_direct E (graph σ) (JObj items) u = Some (location, branch, m, lookups) →
  communicate E (clone_argv location branch (project_path_of u))
    run_command_timeout = Exited 0 →
  read_file E (manifest_file u) = None →
  let after := handle_fetch_drc E (Json (JObj items)) σ in
  (docker_compose E (UUIDStack (JStr u)) (with_memo (payload_known (JObj items)) σ)).1
  = Raise FileNotFoundError
  ∧ after.1 = Unhandled FileNotFoundError
  ∧ graph after.2 = graph σ
  ∧ updates (trace after.2) = updates (trace σ).
Proof.
  intros Hu Hask Hres Hc Hr after. subst after.
  rewrite (fetch_drc_no_file items u σ Hu _ _ _ _ Hres Hask Hc Hr). cbn [fst snd graph trace]. split_and!; try done.
  - apply (docker_compose_no_file items u σ _ _ _ _ Hres Hask Hc Hr).
  - rewrite !updates_app, (resolve_direct_updates _ _ _ _ _ _ _ Hres).
    cbn. by rewrite app_nil_r.
Qed.

(** [run_command] when the wait times out: termination is requested once,
    nothing is awaited after it, and the handle's return code comes back. *)
Lemma run_command_timed_out argv timeout rc raises σ :
  communicate E argv (default run_command_timeout timeout) = TimedOut rc raises →
  run_command E argv timeout σ
  = (Ok rc, State (graph σ) (drawn σ) (memo σ) (trace σ ++ [Spawn argv; Terminate])).
Proof.
  intros Hc. unfold run_command, bind, emit, ret. cbn zeta.
  rewrite Hc. cbn. by flatten_trace.
Qed.

(** C7, as the code has it.  When the wait for the child process times
    out, [run_command] asks the process to terminate, once, and returns
    without waiting for it, whether or not that request itself failed.  When
    this happens to the clone of a direct request and the handle does not
    hold return code 0 at that moment (it holds none while the child is still
    running), the request does not get the success answer, no manifest is
    persisted and the graph is unchanged. *)
Theorem timed_out_fetch_persists_nothing items u σ location branch m lookups rc raises :
  dict_get items "uuid" = Some (JStr u) →
  ask_has_drc (graph σ) u = false →
  resolve_direct E (graph σ) (JObj items) u = Some (location, branch, m, lookups) →
  communicate E (clone_argv location branch (project_path_of u))
    run_command_timeout = TimedOut rc raises →
  rc ≠ Some 0 →
  let argv := clone_argv location branch (project_path_of u) in
  let after := handle_fetch_drc E (Json (JObj items)) σ in
  (∀ σ', run_command E argv None σ'
         = (Ok rc, State (graph σ') (drawn σ') (memo σ')
                     (trace σ' ++ [Spawn argv; Terminate])))
  ∧ (∃ before, trace after.2 = (before ++ [Spawn argv; Terminate])%list)
  ∧ after.1 ≠ success
  ∧ manifests (graph after.2) = manifests (graph σ)
  ∧ graph after.2 = graph σ
  ∧ updates (trace after.2) = updates (trace σ).
Proof.
  intros Hu Hask Hres Hc Hrc argv after. subst after argv.
  rewrite (fetch_drc_clone_failed items u σ Hu _ _ _ _ Hres (TimedOut rc raises)
             Hask Hc) by done.
  cbn [fst snd graph trace command_events]. split_and!; try done.
  - intros σ'. by apply (run_command_timed_out _ None rc raises).
  - eexists (trace σ ++ [_] ++ lookups)%list. by rewrite <- !app_assoc.
  - rewrite !updates_app, (resolve_direct_updates _ _ _ _ _ _ _ Hres).
    cbn. by rewrite app_nil_r.
Qed.

(** *** What a request can do to the graph *)

Section Preserves.

Variable I : gset triple → Prop.

Lemma preserves_bind {T U} (m : M T) (k : T → M U) :
  preserves I m → (∀ a, preserves I (k a)) → preserves I (bind m k).
Proof.
  intros Hm Hk σ HI. unfold bind. specialize (Hm σ HI).
  destruct (m σ) as [[a|e] σ']; [by apply Hk | done].
Qed.

Lemma preserves_try {T} (body handler : M T) :
  preserves I body → preserves I handler →
  preserves I (try_except_AttributeError body handler).
Proof.
  intros Hb Hh σ HI. unfold try_except_AttributeError. specialize (Hb σ HI).
  destruct (body σ) as [[a|[]] σ']; try done. by apply Hh.
Qed.

Lemma preserves_pure {T} (m : M T) :
  (∀ σ, graph (m σ).2 = graph σ) → preserves I m.
Proof. intros Hm σ HI. by rewrite Hm. Qed.

Lemma preserves_modify_graph f :
  (∀ G, I G → I (f G)) → preserves I (modify_graph f).
Proof. intros Hf σ HI. by apply Hf. Qed.


End Preserves.

(** Steps that never write to the graph. *)
Ltac pure_step := apply preserves_pure; intros ?; reflexivity.

Ltac preserve :=
  repeat first
    [ apply preserves_bind; [|intros ?]
    | apply preserves_try
    | pure_step
    | match goal with
      | |- preserves _ (match ?x with _ => _ end) => destruct x
      | |- preserves _ (if ?b then _ else _) => destruct b
      end ].

Section Invariant.

Variable I : gset triple → Prop.
Hypothesis insert_ok : ∀ uri drc_uuid drc title G,
  I G → I (insert_manifest uri drc_uuid drc title G).
Hypothesis relink_ok : ∀ stack_uri drc_uri G, I G → I (relink stack_uri drc_uri G).


Lemma preserves_stack_uuid s : preserves I (stack_uuid E s).
Proof. unfold stack_uuid. destruct s; preserve. Qed.



Lemma preserves_update_stack_drc drc_uri s :
  preserves I (update_stack_drc E drc_uri s).
Proof.
  unfold update_stack_drc. preserve; try apply preserves_stack_uuid.
  apply preserves_modify_graph. intros G. apply relink_ok.
Qed.



End Invariant.

(** *** The change-notification entry point, once a stack is found *)

Lemma stack_inserted_shaped elems ts :
  Forall2 (λ e t, as_triple e = Some t) elems ts →
  stack_inserted (JArr elems)
  = Ok (from_option (λ t, JStr (subject t)) JNull (head (List.filter qualifies ts))).
Proof.
  intros Hshape. unfold stack_inserted. cbn [iterate rbind].
  rewrite (comprehension_filter _ _ Hshape). by destruct (List.filter qualifies ts).
Qed.

(** The stack found in the delta already has a manifest. *)
Lemma delta_update_already_linked data inserts s f σ :
  delta_inserts data = Ok inserts →
  stack_inserted inserts = Ok (JStr s) →
  s ≠ "" →
  lookup E (graph σ) (URIStack (JStr s)) = Some f →
  ask_has_drc (graph σ) (f_uuid f) = true →
  handle_delta_update E (Json data) σ
  = (HTTPInternalServerError (conflict_envelope (awaitable_repr E)),
     State (graph σ) (S (drawn σ)) (all_known f)
       (trace σ ++ [Lookup (URIStack (JStr s));
                    Query (ensure_stack_has_drc_text (app_graph E)
                             (escape_text (f_uuid f)))])).
Proof.
  intros Hd Hs Hne Hl Hask. apply String.eqb_neq in Hne. exec.
  by flatten_trace.
Qed.

Lemma handle_delta_update_found data inserts s σ :
  delta_inserts data = Ok inserts →
  stack_inserted inserts = Ok (JStr s) →
  delta_answers (handle_delta_update E (Json data) σ).1.
Proof.
  intros Hd Hs. unfold delta_answers. exec.
  assert (∀ e, e ≠ AttributeError →
            ∃ e', e' ≠ AttributeError ∧ Unhandled e = Unhandled e') as Hescapes
    by (intros e He; by exists e).
  destruct (negb (s =? "")%string); cbn; [|by eauto].
  destruct (lookup E (graph σ) (URIStack (JStr s))) as [f|]; cbn; [|by eauto 6].
  destruct (ask_has_drc (graph σ) (f_uuid f)); cbn; [by eauto 6|].
  destruct (communicate E _ _) as [rc | [rc|] raises]; cbn.
  - destruct rc; cbn; eauto 6.
    destruct (read_file E _); cbn; eauto 6.
  - destruct rc; cbn; eauto 6.
    destruct (read_file E _); cbn; eauto 6.
  - eauto 6.
Qed.

(** C5, as the code has it.  For every body of the documented shape the
    change-notification entry point ends in one of these ways: it returns
    status 200 with the success envelope, or status 200 with the plain
    acknowledgement, or it raises the conflict envelope as an HTTP 500, or it
    ends on an exception other than AttributeError, which it does not
    catch. *)
Theorem delta_update_answers data ts σ :
  delta_body data ts →
  let o := (handle_delta_update E (Json data) σ).1 in
  o = Responded 200 (JsonBody success_envelope)
  ∨ o = Responded 200 (TextBody "whatever")
  ∨ (∃ detail, o = RaisedHTTP 500 (JsonBody (conflict_envelope detail)))
  ∨ (∃ e, e ≠ AttributeError ∧ o = Unhandled e).
Proof.
  intros (elems & Hd & Hshape) o. subst o.
  pose proof (stack_inserted_shaped elems ts Hshape) as Hs.
  destruct (head (List.filter qualifies ts)) as [t|]; cbn in Hs.
  - apply (handle_delta_update_found data (JArr elems) (subject t) σ Hd Hs).
  - rewrite (handle_delta_update_inert E data (JArr elems) JNull σ Hd Hs eq_refl).
    right. by left.
Qed.

End Workflow.

(** ** The claims on the concrete world *)

Section Concrete.

Import Example.

Lemma unlinked_has_no_drc : ask_has_drc unlinked "abc123" = false.
Proof. by vm_compute. Qed.

Lemma linked_has_drc : ask_has_drc linked "abc123" = true.
Proof. by vm_compute. Qed.

(** The example request carries its location and branch: no lookup. *)
Lemma direct_resolves E :
  resolve_direct E unlinked (JObj direct_items) "abc123"
  = Some ("https://example.test/r.git", "main", payload_known (JObj direct_items), []).
Proof. reflexivity. Qed.

Lemma stack_node_unlinked : stack_node ∈ unlinked.
Proof. by apply elem_of_singleton. Qed.

Lemma notification_finds_stack :
  stack_inserted (JArr (map triple_json inserted))
  = Ok (JStr (stack_uri_of "abc123")).
Proof. by vm_compute. Qed.

(** C2 does not hold as stated: in a world where the clone exits with
    status 128, a direct request for a stack without manifest is answered
    with the conflict envelope, the answer for a stack that already has one,
    so the answer does not report a failed fetch. *)
Lemma failed_fetch_answered_as_conflict :
  communicate failing (clone_argv "https://example.test/r.git" "main" "/data/abc123")
    run_command_timeout = Exited 128
  ∧ ask_has_drc unlinked "abc123" = false
  ∧ (handle_fetch_drc failing direct (start unlinked)).1
    = RaisedHTTP 500 (JsonBody (conflict_envelope "abc123"))
  ∧ ¬ reports_failure (handle_fetch_drc failing direct (start unlinked)).1.
Proof.
  unfold direct.
  rewrite (fetch_drc_clone_failed failing direct_items "abc123" (start unlinked)
             eq_refl _ _ _ _ (direct_resolves _) (Exited 128) unlinked_has_no_drc eq_refl)
    by done.
  split_and!; [done | apply unlinked_has_no_drc | done |].
  intros (_ & Hconflict & _). apply Hconflict. by exists "abc123".
Qed.

(** C5 does not hold as stated: a notification of the documented shape for a
    stack that already has a manifest is not answered with status 200; the
    conflict envelope is raised as an HTTP 500. *)
Lemma conflict_is_not_answered_200 :
  delta_body (delta_json inserted) inserted
  ∧ (handle_delta_update fetchable notification (start linked)).1
    = RaisedHTTP 500 (JsonBody (conflict_envelope "<coroutine object>"))
  ∧ ¬ answers_200 (handle_delta_update fetchable notification (start linked)).1.
Proof.
  unfold notification.
  rewrite (delta_update_already_linked fetchable (delta_json inserted)
             (JArr (map triple_json inserted)) (stack_uri_of "abc123") fields
             (start linked) eq_refl notification_finds_stack)
    by (done || apply linked_has_drc).
  split_and!; [apply delta_json_body | done |].
  by intros (body & Heq & _).
Qed.

(** C6 does not hold as stated: in a world where the clone returns 0 and
    the workspace holds no docker-compose.yml, a direct request ends on a
    FileNotFoundError that no handler caught. *)
Lemma missing_manifest_is_unhandled :
  communicate empty_repository
    (clone_argv "https://example.test/r.git" "main" "/data/abc123")
    run_command_timeout = Exited 0
  ∧ read_file empty_repository "/data/abc123/docker-compose.yml" = None
  ∧ (handle_fetch_drc empty_repository direct (start unlinked)).1
    = Unhandled FileNotFoundError
  ∧ ¬ reports_failure (handle_fetch_drc empty_repository direct (start unlinked)).1.
Proof.
  unfold direct.
  rewrite (fetch_drc_no_file empty_repository direct_items "abc123" (start unlinked)
             eq_refl _ _ _ _ (direct_resolves _) unlinked_has_no_drc eq_refl eq_refl).
  split_and!; try done.
  intros (_ & _ & Hhandled). by apply (Hhandled FileNotFoundError).
Qed.

(** C7 does not hold as stated: in a world where the clone times out while
    the child is still running, a direct request for a stack without manifest
    is answered with the conflict envelope, not with a timeout failure. *)
Lemma timed_out_fetch_answered_as_conflict :
  communicate slow (clone_argv "https://example.test/r.git" "main" "/data/abc123")
    run_command_timeout = TimedOut None false
  ∧ ask_has_drc unlinked "abc123" = false
  ∧ (handle_fetch_drc slow direct (start unlinked)).1
    = RaisedHTTP 500 (JsonBody (conflict_envelope "abc123"))
  ∧ ¬ reports_failure (handle_fetch_drc slow direct (start unlinked)).1.
Proof.
  unfold direct.
  rewrite (fetch_drc_clone_failed slow direct_items "abc123" (start unlinked)
             eq_refl _ _ _ _ (direct_resolves _) (TimedOut None false)
             unlinked_has_no_drc eq_refl)
    by done.
  split_and!; [done | apply unlinked_has_no_drc | done |].
  intros (_ & Hconflict & _). apply Hconflict. by exists "abc123".
Qed.

(** C8 fails on the code.  The identifier of a direct request goes into the
    text of the relink update as it is: with the crafted identifier the
    statement that should relink one stack names a second subject, the stack
    called victim, in its DELETE, WHERE and INSERT DATA parts. *)
Theorem relink_text_takes_identifier_unescaped :
  let after := handle_fetch_drc fetchable crafted (start ∅) in
  after.1 = Responded 200 (JsonBody success_envelope)
  ∧ last (trace after.2)
    = Some (Update (lines
        [ "PREFIX swarmui: <http://swarmui.semte.ch/vocabularies/core/>";
          "DELETE {";
          "GRAPH <http://mu.semte.ch/application> {";
          "<http://swarm-ui.big-data-europe.eu/resources/stacks/x> swarmui:dockerComposeFile <http://example.test/e>. <http://swarm-ui.big-data-europe.eu/resources/stacks/victim> swarmui:dockerComposeFile ?s.";
          "}";
          "}";
          "WHERE {";
          "GRAPH <http://mu.semte.ch/application> {";
          "OPTIONAL {";
          "<http://swarm-ui.big-data-europe.eu/resources/stacks/x> swarmui:dockerComposeFile <http://example.test/e>. <http://swarm-ui.big-data-europe.eu/resources/stacks/victim> swarmui:dockerComposeFile ?s.";
          "}";
          "}";
          "};";
          "INSERT DATA";
          "{";
          "GRAPH <http://mu.semte.ch/application> {";
          "<http://swarm-ui.big-data-europe.eu/resources/stacks/x> swarmui:dockerComposeFile <http://example.test/e>. <http://swarm-ui.big-data-europe.eu/resources/stacks/victim> swarmui:dockerComposeFile <http://stack-builder.big-data-europe.eu/resources/docker-composes/c0ffee>.";
          "}";
          "}" ])).
Proof.
  intros after. subst after. unfold crafted.
  assert (ask_has_drc (graph (start ∅)) crafted_uuid = false) as Hask by by vm_compute.
  rewrite (fetch_drc_links fetchable crafted_items crafted_uuid (start ∅) eq_refl
             "https://example.test/r.git" "main" (payload_known (JObj crafted_items)) []
             eq_refl compose_text Hask eq_refl eq_refl).
  split; [done|]. by vm_compute.
Qed.


Lemma inserted_shape :
  Forall2 (λ e t, as_triple e = Some t) (map triple_json inserted) inserted.
Proof. repeat constructor. Qed.

(** The change filter on two qualifying triples after an unrelated one, and
    on the unrelated one alone. *)
Lemma stack_inserted_first_qualifying_witness :
  stack_inserted
    (JArr (map triple_json [other_triple; stack_triple "S1"; stack_triple "S2"]))
  = Ok (JStr "S1")
  ∧ stack_inserted (JArr (map triple_json [other_triple])) = Ok JNull.
Proof.
  split.
  - apply (proj1 (stack_inserted_first_qualifying
                    (map triple_json [other_triple; stack_triple "S1"; stack_triple "S2"])
                    [other_triple; stack_triple "S1"; stack_triple "S2"]
                    ltac:(repeat constructor))
             [other_triple] (stack_triple "S1") [stack_triple "S2"]).
    + reflexivity.
    + repeat constructor.
    + reflexivity.
  - apply (proj2 (stack_inserted_first_qualifying
                    (map triple_json [other_triple]) [other_triple]
                    ltac:(repeat constructor))).
    repeat constructor.
Defined.

(** A notification without Stack insert, in any world and state. *)
Lemma handle_delta_update_without_stack_witness :
  handle_delta_update fetchable (Json (delta_json [other_triple])) (start linked)
  = (Responded 200 (TextBody "whatever"), start linked)
  ∧ trace (handle_delta_update fetchable (Json (delta_json [other_triple]))
             (start linked)).2 = []
  ∧ graph (handle_delta_update fetchable (Json (delta_json [other_triple]))
             (start linked)).2 = linked.
Proof.
  apply (handle_delta_update_without_stack fetchable (delta_json [other_triple])
           [other_triple] (start linked)).
  - apply delta_json_body.
  - repeat constructor.
Defined.

(** The three malformed bodies: no delta, empty delta, delta without inserts. *)
Lemma handle_delta_update_malformed_witness :
  handle_delta_update fetchable (Json (JObj [])) (start linked)
  = (Unhandled KeyError, start linked)
  ∧ handle_delta_update fetchable (Json (JObj [("delta", JArr [])])) (start linked)
    = (Unhandled IndexError, start linked)
  ∧ handle_delta_update fetchable (Json (JObj [("delta", JArr [JObj []])]))
      (start linked)
    = (Unhandled KeyError, start linked).
Proof.
  split_and!.
  - apply (proj1 (handle_delta_update_malformed fetchable [] (start linked))).
    reflexivity.
  - apply (proj1 (proj2 (handle_delta_update_malformed fetchable
                           [("delta", JArr [])] (start linked)))).
    reflexivity.
  - apply (proj2 (proj2 (handle_delta_update_malformed fetchable
                           [("delta", JArr [JObj []])] (start linked))) [] []).
    + reflexivity.
    + reflexivity.
Defined.

(** The scenario of the specification: stack abc123, no manifest yet, a
    repository that can be fetched. *)
Lemma ensure_and_link_twice_witness :
  let first := handle_fetch_drc fetchable direct (start unlinked) in
  let second := handle_fetch_drc fetchable direct first.2 in
  let uri := Iri (drc_uri_of "c0ffee") in
  first.1 = Responded 200 (JsonBody success_envelope)
  ∧ second.1 = RaisedHTTP 500 (JsonBody (conflict_envelope "abc123"))
  ∧ edges_of (Iri (stack_uri_of "abc123")) (graph second.2) = {[ uri ]}
  ∧ size (edges_of (Iri (stack_uri_of "abc123")) (graph second.2)) = 1%nat
  ∧ manifests (graph second.2) = manifests unlinked ∪ {[ uri ]}
  ∧ (uri ∉ manifests unlinked →
     size (manifests (graph second.2)) = S (size (manifests unlinked))).
Proof.
  apply (ensure_and_link_twice fetchable direct_items "abc123" (start unlinked)
           "https://example.test/r.git" "main" (payload_known (JObj direct_items)) []
           compose_text).
  - reflexivity.
  - apply stack_node_unlinked.
  - vm_compute. reflexivity.
  - reflexivity.
  - reflexivity.
  - reflexivity.
Defined.

Lemma failed_fetch_writes_nothing_witness :
  let after := handle_fetch_drc failing direct (start unlinked) in
  after.1 ≠ success
  ∧ graph after.2 = unlinked
  ∧ updates (trace after.2) = []
  ∧ manifests (graph after.2) = manifests unlinked
  ∧ ∀ s, edges_of s (graph after.2) = edges_of s unlinked.
Proof.
  apply (failed_fetch_writes_nothing failing direct_items "abc123" (start unlinked)
           "https://example.test/r.git" "main" (payload_known (JObj direct_items)) []
           128).
  - reflexivity.
  - vm_compute. reflexivity.
  - reflexivity.
  - reflexivity.
  - lia.
Defined.

Lemma missing_manifest_raises_witness :
  let after := handle_fetch_drc empty_repository direct (start unlinked) in
  (docker_compose empty_repository (UUIDStack (JStr "abc123"))
     (with_memo (payload_known (JObj direct_items)) (start unlinked))).1
  = Raise FileNotFoundError
  ∧ after.1 = Unhandled FileNotFoundError
  ∧ graph after.2 = unlinked
  ∧ updates (trace after.2) = [].
Proof.
  apply (missing_manifest_raises empty_repository direct_items "abc123"
           (start unlinked) "https://example.test/r.git" "main"
           (payload_known (JObj direct_items)) []).
  - reflexivity.
  - vm_compute. reflexivity.
  - reflexivity.
  - reflexivity.
  - reflexivity.
Defined.

Lemma timed_out_fetch_persists_nothing_witness :
  let argv := clone_argv "https://example.test/r.git" "main" "/data/abc123" in
  let after := handle_fetch_drc slow direct (start unlinked) in
  (∀ σ', run_command slow argv None σ'
         = (Ok None, State (graph σ') (drawn σ') (memo σ')
                       (trace σ' ++ [Spawn argv; Terminate])))
  ∧ (∃ before, trace after.2 = (before ++ [Spawn argv; Terminate])%list)
  ∧ after.1 ≠ success
  ∧ manifests (graph after.2) = manifests unlinked
  ∧ graph after.2 = unlinked
  ∧ updates (trace after.2) = [].
Proof.
  apply (timed_out_fetch_persists_nothing slow direct_items "abc123" (start unlinked)
           "https://example.test/r.git" "main" (payload_known (JObj direct_items)) []
           None false).
  - reflexivity.
  - vm_compute. reflexivity.
  - reflexivity.
  - reflexivity.
  - discriminate.
Defined.

Lemma delta_update_answers_witness :
  let o := (handle_delta_update fetchable notification (start linked)).1 in
  o = Responded 200 (JsonBody success_envelope)
  ∨ o = Responded 200 (TextBody "whatever")
  ∨ (∃ detail, o = RaisedHTTP 500 (JsonBody (conflict_envelope detail)))
  ∨ (∃ e, e ≠ AttributeError ∧ o = Unhandled e).
Proof.
  apply (delta_update_answers fetchable (delta_json inserted) inserted (start linked)).
  apply delta_json_body.
Defined.

End Concrete.

(** ** Beyond the claims: what a request writes *)

Section Keeps.

Variable E : env.

Lemma keeps_bind P {T U} (m : M T) (k : T → M U) :
  keeps P m → (∀ a, keeps P (k a)) → keeps P (bind m k).
Proof.
  intros Hm Hk σ HP. unfold bind. specialize (Hm σ HP).
  destruct (m σ) as [[a|e] σ']; [by apply Hk | done].
Qed.

Lemma keeps_same P {T} (m : M T) : (∀ σ, (m σ).2 = σ) → keeps P m.
Proof. intros Hm σ HP. by rewrite Hm. Qed.

Lemma updates_snoc tr ev :
  (∀ text, ev ≠ Update text) → updates (tr ++ [ev]) = updates tr.
Proof.
  intros Hev. rewrite updates_app. destruct ev; cbn; try by rewrite app_nil_r.
  by destruct (Hev text).
Qed.

(** Events other than updates, and what a Stack reference remembers, do not
    count as writing. *)
Lemma quiet_emit G sent n ev :
  (∀ text, ev ≠ Update text) → keeps (quiet G sent n) (emit ev).
Proof.
  intros Hev σ (HG & Hsent & Hn). unfold quiet. cbn.
  by rewrite updates_snoc.
Qed.

Lemma quiet_set_memo G sent n m : keeps (quiet G sent n) (set_memo m).
Proof. by intros σ H. Qed.

End Keeps.

Ltac same_state := apply keeps_same; intros ?; reflexivity.

Ltac keep :=
  repeat first
    [ apply keeps_bind; [|intros ?]
    | same_state
    | apply quiet_set_memo
    | apply quiet_emit; discriminate
    | match goal with
      | |- keeps _ (match ?x with _ => _ end) => destruct x
      | |- keeps _ (if ?b then _ else _) => destruct b
      end ].

Section Writes.

Variable E : env.

Lemma quiet_stack_uuid G sent n s : keeps (quiet G sent n) (stack_uuid E s).
Proof. destruct s; unfold stack_uuid; keep. Qed.

(** [docker_compose] writes nothing: it sends no update, leaves the graph
    alone and draws no identifier. *)
Lemma quiet_docker_compose G sent n s : keeps (quiet G sent n) (docker_compose E s).
Proof. unfold docker_compose. keep. apply quiet_stack_uuid. Qed.

End Writes.

(** ** The text of the relink statement, read back *)

Section ReadBack.

Local Arguments String.append !_ _ / : simpl nomatch.

Lemma append_assoc (a b c : string) : (a ++ b) ++ c = a ++ (b ++ c).
Proof. induction a as [|x a IH]; cbn; [done | by rewrite IH]. Qed.

Lemma strip_prefix_app p s : strip_prefix p (p ++ s) = Some s.
Proof.
  induction p as [|a p IH]; cbn; [done|]. by rewrite Ascii.eqb_refl.
Qed.

Lemma until_app c s rest :
  absent c s = true → until c (s ++ String c rest) = Some (s, rest).
Proof.
  induction s as [|a s IH]; cbn.
  - intros _. by rewrite Ascii.eqb_refl.
  - intros [Ha Hs]%andb_prop. apply negb_true_iff in Ha. rewrite Ha, (IH Hs). done.
Qed.

Lemma absent_app c a b : absent c (a ++ b) = absent c a && absent c b.
Proof.
  induction a as [|x a IH]; cbn; [done|]. by rewrite IH, andb_assoc.
Qed.

Lemma iri_safe_app a b : iri_safe (a ++ b) = iri_safe a && iri_safe b.
Proof.
  induction a as [|x a IH]; cbn; [done|]. by rewrite IH, andb_assoc.
Qed.

Lemma iri_safe_absent c s :
  forbidden_in_iri c = true → iri_safe s = true → absent c s = true.
Proof.
  intros Hc. induction s as [|a s IH]; cbn; [done|].
  intros [Ha Hs]%andb_prop. rewrite (IH Hs), andb_true_r.
  apply negb_true_iff. destruct (Ascii.eqb a c) eqn:Heq; [|done].
  apply Ascii.eqb_eq in Heq as ->. by rewrite Hc in Ha.
Qed.

Lemma split_lines_line s :
  absent "010" s = true → split_lines s = [s].
Proof.
  induction s as [|a s IH]; cbn; [done|].
  intros [Ha Hs]%andb_prop. apply negb_true_iff in Ha. by rewrite Ha, (IH Hs).
Qed.

Lemma split_lines_app s rest :
  absent "010" s = true →
  split_lines (s ++ String "010" rest) = s :: split_lines rest.
Proof.
  induction s as [|a s IH]; cbn; [done|].
  intros [Ha Hs]%andb_prop. apply negb_true_iff in Ha. by rewrite Ha, (IH Hs).
Qed.

Lemma split_lines_lines ls :
  ls ≠ [] → Forall (λ l, absent "010" l = true) ls → split_lines (lines ls) = ls.
Proof.
  intros Hne Hall. unfold lines, newline.
  induction Hall as [|l ls Hl Hls IH]; [done|].
  destruct ls as [|l' ls].
  - by apply split_lines_line.
  - change (String.concat (String "010" "") (l :: l' :: ls))
      with (l ++ String "010" (String.concat (String "010" "") (l' :: ls))).
    rewrite (split_lines_app _ _ Hl). by rewrite IH.
Qed.

Lemma read_graph_line g :
  iri_safe g = true → read_graph ("GRAPH " ++ ("<" ++ g ++ ">") ++ " {") = Some g.
Proof.
  intros Hg. unfold read_graph.
  assert ("GRAPH " ++ ("<" ++ g ++ ">") ++ " {" = "GRAPH <" ++ (g ++ String ">" " {"))
    as -> by (cbn; by rewrite append_assoc).
  rewrite strip_prefix_app. cbn [mbind option_bind].
  rewrite until_app by by apply iri_safe_absent.
  cbn [mbind option_bind]. by rewrite Hg.
Qed.

Lemma read_pattern_line s :
  iri_safe s = true →
  read_pattern ("<" ++ s ++ "> swarmui:dockerComposeFile ?s.") = Some s.
Proof.
  intros Hs. unfold read_pattern.
  rewrite strip_prefix_app. cbn [mbind option_bind].
  change "> swarmui:dockerComposeFile ?s."
    with (String ">" " swarmui:dockerComposeFile ?s.").
  rewrite until_app by by apply iri_safe_absent.
  cbn [mbind option_bind]. by rewrite Hs.
Qed.

Lemma read_edge_line s d :
  iri_safe s = true → iri_safe d = true →
  read_edge ("<" ++ s ++ "> swarmui:dockerComposeFile <" ++ d ++ ">.") = Some (s, d).
Proof.
  intros Hs Hd. unfold read_edge.
  rewrite strip_prefix_app. cbn [mbind option_bind].
  assert ("> swarmui:dockerComposeFile <" ++ d ++ ">."
          = String ">" (" swarmui:dockerComposeFile <" ++ (d ++ String ">" ".")))
    as -> by done.
  rewrite until_app by by apply iri_safe_absent.
  cbn [mbind option_bind]. rewrite strip_prefix_app. cbn [mbind option_bind].
  rewrite until_app by by apply iri_safe_absent.
  cbn [mbind option_bind]. by rewrite Hs, Hd.
Qed.

(** The text sent by [update_stack_drc] reads as the relink statement of the
    stack and the manifest it was made from, provided both can stand in an
    IRI reference. *)
Lemma read_relink_text g s d :
  iri_safe g = true → iri_safe s = true → iri_safe d = true →
  read_relink (update_stack_drc_text ("<" ++ g ++ ">") s d) = Some (g, s, d).
Proof.
  intros Hg Hs Hd.
  pose proof (iri_safe_absent "010" g eq_refl Hg) as Hg'.
  pose proof (iri_safe_absent "010" s eq_refl Hs) as Hs'.
  pose proof (iri_safe_absent "010" d eq_refl Hd) as Hd'.
  unfold read_relink, update_stack_drc_text.
  rewrite split_lines_lines.
  - cbn [forallb fst snd]. rewrite !String.eqb_refl. cbn [andb]. cbv iota.
    rewrite !read_graph_line, !read_pattern_line, !read_edge_line by done.
    cbn [mbind option_bind]. by rewrite !String.eqb_refl.
  - done.
  - repeat constructor; rewrite ?absent_app, ?Hg', ?Hs', ?Hd'; done.
Qed.

End ReadBack.

(** ** What the requests send, and what a request that succeeded has written *)

Section Succeeded.

Variable E : env.

Local Arguments str_field : simpl never.

Lemma relink_meaning_relink text g s d G :
  read_relink text = Some (g, s, d) →
  relink_meaning text G = Some (relink s d G).
Proof. intros Hread. unfold relink_meaning. by rewrite Hread. Qed.

Lemma iri_safe_stack_uri u :
  iri_safe u = true → iri_safe (stack_uri_of u) = true.
Proof. intros Hu. unfold stack_uri_of. by rewrite iri_safe_app, Hu. Qed.

Lemma iri_safe_drc_uri id :
  iri_safe id = true → iri_safe (drc_uri_of id) = true.
Proof. intros Hid. unfold drc_uri_of. by rewrite iri_safe_app, Hid. Qed.

(** The text [update_stack_drc] sends for a stack and a manifest reads as
    the relink of the one to the other, and means the relink on the graph. *)
Lemma update_stack_drc_text_reads g u drc_uri G :
  app_graph E = "<" ++ g ++ ">" →
  iri_safe g = true → iri_safe u = true → iri_safe drc_uri = true →
  let text := update_stack_drc_text (app_graph E) (stack_uri_of u) drc_uri in
  read_relink text
  = Some (g, "http://swarm-ui.big-data-europe.eu/resources/stacks/" ++ u, drc_uri)
  ∧ relink_meaning text G = Some (relink (stack_uri_of u) drc_uri G).
Proof.
  intros Hg Hsafe Hu Hd text. subst text. rewrite Hg.
  pose proof (read_relink_text g (stack_uri_of u) drc_uri Hsafe
                (iri_safe_stack_uri u Hu) Hd) as Hread.
  split; [exact Hread | by apply (relink_meaning_relink _ g)].
Qed.

Lemma last_provisioning_updates old u id text :
  last (old ++ provisioning_updates E u id text)
  = Some (update_stack_drc_text (app_graph E) (stack_uri_of u) (drc_uri_of id)).
Proof.
  unfold provisioning_updates.
  match goal with
  | |- last (old ++ [?a; ?b])%list = _ =>
      change (old ++ [a; b])%list with (old ++ [a] ++ [b])%list
  end.
  rewrite app_assoc. apply last_snoc.
Qed.

Ltac count_updates :=
  cbn [fst snd graph trace]; rewrite ?updates_app; cbn; rewrite ?app_nil_r;
  rewrite <- ?app_assoc.

(** A direct request either provisions the stack it names by a string, from
    the file cloned for that uuid, or sends no update at all. *)
Lemma direct_request_writes r σ :
  let after := handle_fetch_drc E r σ in
  let id := uuid1_hex E (drawn σ) in
  (after.1 ≠ success
   ∧ graph after.2 = graph σ
   ∧ updates (trace after.2) = updates (trace σ))
  ∨ (∃ u text,
       request_uuid r = Some u
       ∧ after.1 = success
       ∧ read_file E (manifest_file u) = Some text
       ∧ graph after.2 = provisioned u id text (graph σ)
       ∧ updates (trace after.2)
         = (updates (trace σ) ++ provisioning_updates E u id text)%list).
Proof.
  intros after id. subst after id.
  destruct r as [|data].
  { left. by split. }
  destruct data as [| | | | |items]; try (left; by split).
  unfold request_uuid.
  destruct (dict_get items "uuid") as [uuid|] eqn:Huuid.
  2: { left. unfold_run. cbn. rewrite Huuid. by cbn. }
  unfold manifest_file, provisioned, provisioning_updates, success.
  unfold_run. unfold payload_known. cbn. rewrite Huuid. cbn.
  destruct uuid as [| | |u| |]; try (left; by split).
  cbn.
  destruct (ask_has_drc (graph σ) u); cbn.
  { left. by count_updates. }
  destruct (str_field (JObj items) "location") as [location|]; cbn;
    [destruct (str_field (JObj items) "branch") as [branch|]; cbn|].
  all: try (destruct (lookup E (graph σ) (UUIDStack (JStr u))) as [f|]; cbn;
            [|left; by count_updates]).
  all: destruct (communicate E _ _) as [rc | [rc|] raises]; cbn.
  all: try (left; by count_updates).
  all: destruct rc; cbn; try (left; by count_updates).
  all: destruct (read_file E _) as [text|] eqn:Hr; cbn; [|left; by count_updates].
  all: right; exists u, text; by count_updates.
Qed.

(** A notification either provisions the stack its lookup found, from the
    file cloned for that stack's uuid, or sends no update at all. *)
Lemma notification_writes r σ :
  let after := handle_delta_update E r σ in
  let id := uuid1_hex E (drawn σ) in
  (after.1 ≠ success
   ∧ graph after.2 = graph σ
   ∧ updates (trace after.2) = updates (trace σ))
  ∨ (∃ data inserts v f text,
       r = Json data
       ∧ delta_inserts data = Ok inserts
       ∧ stack_inserted inserts = Ok v
       ∧ lookup E (graph σ) (URIStack v) = Some f
       ∧ after.1 = success
       ∧ read_file E (manifest_file (f_uuid f)) = Some text
       ∧ graph after.2 = provisioned (f_uuid f) id text (graph σ)
       ∧ updates (trace after.2)
         = (updates (trace σ) ++ provisioning_updates E (f_uuid f) id text)%list).
Proof.
  intros after id. subst after id.
  destruct r as [|data].
  { left. by split. }
  destruct (delta_inserts data) as [inserts|e] eqn:Hd.
  2: { rewrite (handle_delta_update_no_inserts E data e σ Hd). left. by split. }
  destruct (stack_inserted inserts) as [v|e] eqn:Hs.
  2: { left. unfold handle_delta_update, finish, bind, lift.
       rewrite Hd, Hs. by split. }
  destruct (truthy v) eqn:Hv.
  2: { rewrite (handle_delta_update_inert E data inserts v σ Hd Hs Hv).
       left. by split. }
  unfold manifest_file, provisioned, provisioning_updates, success.
  unfold_run. rewrite Hd. cbn. rewrite Hs. cbn. rewrite Hv. cbn.
  destruct (lookup E (graph σ) (URIStack v)) as [f|] eqn:Hl; cbn;
    [|left; by count_updates].
  destruct (ask_has_drc (graph σ) (f_uuid f)); cbn.
  { left. by count_updates. }
  destruct (communicate E _ _) as [rc | [rc|] raises]; cbn.
  all: try (left; by count_updates).
  all: destruct rc; cbn; try (left; by count_updates).
  all: destruct (read_file E _) as [text|] eqn:Hr; cbn; [|left; by count_updates].
  all: right; exists data, inserts, v, f, text; by count_updates.
Qed.

(** What the two updates of a provisioning are: the second reads as the
    relink of the stack to the new manifest, and makes the provisioned graph
    of the graph the first has left. *)
Lemma provisioning_reads g u id text G old :
  safe_world E g → iri_safe u = true →
  ∃ relink_text,
    last (old ++ provisioning_updates E u (uuid1_hex E id) text) = Some relink_text
    ∧ read_relink relink_text
      = Some (g, "http://swarm-ui.big-data-europe.eu/resources/stacks/" ++ u,
              "http://stack-builder.big-data-europe.eu/resources/docker-composes/"
              ++ uuid1_hex E id)
    ∧ relink_meaning relink_text
        (insert_manifest (drc_uri_of (uuid1_hex E id)) (uuid1_hex E id) text
           (title_of u (uuid1_hex E id)) G)
      = Some (provisioned u (uuid1_hex E id) text G).
Proof.
  intros (Hg & Hsafe & Hdrawn & _) Hu. eexists. split; [apply last_provisioning_updates|].
  apply (update_stack_drc_text_reads g u (drc_uri_of (uuid1_hex E id)) _ Hg Hsafe Hu).
  apply iri_safe_drc_uri, Hdrawn.
Qed.


(** X1. A direct request that was answered with the success envelope has
    provisioned the stack it named.  On identifiers that can stand in an IRI
    reference: the request named a uuid as a string, the file cloned for that
    uuid was read, the request sent the manifest insert and then the relink
    and no other update, the relink text reads as the relink of the address
    derived from that uuid to the new manifest, and the graph is the one that
    text makes of the graph with the manifest inserted. *)
Theorem direct_success_means_provisioned g r σ :
  safe_world E g →
  safe_request r →
  let after := handle_fetch_drc E r σ in
  let id := uuid1_hex E (drawn σ) in
  after.1 = Responded 200 (JsonBody success_envelope) →
  ∃ u text relink_text,
    request_uuid r = Some u
    ∧ read_file E (manifest_file u) = Some text
    ∧ updates (trace after.2)
      = (updates (trace σ) ++ provisioning_updates E u id text)%list
    ∧ last (updates (trace after.2)) = Some relink_text
    ∧ read_relink relink_text
      = Some (g, "http://swarm-ui.big-data-europe.eu/resources/stacks/" ++ u,
              "http://stack-builder.big-data-europe.eu/resources/docker-composes/" ++ id)
    ∧ relink_meaning relink_text
        (insert_manifest (drc_uri_of id) id text (title_of u id) (graph σ))
      = Some (graph after.2)
    ∧ edges_of (Iri (stack_uri_of u)) (graph after.2) = {[ Iri (drc_uri_of id) ]}.
Proof.
  intros Hworld Hr after id Hsuccess. subst after id.
  destruct (direct_request_writes r σ)
    as [(Hne & _) | (u & text & Hu & _ & Hfile & Hgraph & Hupdates)]; [done|].
  destruct (provisioning_reads g u (drawn σ) text (graph σ) (updates (trace σ))
              Hworld (Hr u Hu)) as (relink_text & Hlast & Hread & Hmeans).
  exists u, text, relink_text. rewrite Hupdates, Hgraph.
  split_and!; try done. apply edges_of_relink.
Qed.

(** X2. A notification that was answered with the success envelope has
    provisioned the stack its lookup found, in the same sense: the body had
    the inserts, the filter gave a node, the lookup of that node gave the
    stack, the file cloned for the stack's uuid was read, the manifest insert
    and the relink were sent and no other update, and the relink text reads
    as the relink of the address derived from the stack's uuid. *)
Theorem notification_success_means_provisioned g r σ :
  safe_world E g →
  let after := handle_delta_update E r σ in
  let id := uuid1_hex E (drawn σ) in
  after.1 = Responded 200 (JsonBody success_envelope) →
  ∃ data inserts v f text relink_text,
    r = Json data
    ∧ delta_inserts data = Ok inserts
    ∧ stack_inserted inserts = Ok v
    ∧ lookup E (graph σ) (URIStack v) = Some f
    ∧ read_file E (manifest_file (f_uuid f)) = Some text
    ∧ updates (trace after.2)
      = (updates (trace σ) ++ provisioning_updates E (f_uuid f) id text)%list
    ∧ last (updates (trace after.2)) = Some relink_text
    ∧ read_relink relink_text
      = Some (g, "http://swarm-ui.big-data-europe.eu/resources/stacks/" ++ f_uuid f,
              "http://stack-builder.big-data-europe.eu/resources/docker-composes/" ++ id)
    ∧ relink_meaning relink_text
        (insert_manifest (drc_uri_of id) id text (title_of (f_uuid f) id) (graph σ))
      = Some (graph after.2)
    ∧ edges_of (Iri (stack_uri_of (f_uuid f))) (graph after.2) = {[ Iri (drc_uri_of id) ]}.
Proof.
  intros Hworld after id Hsuccess. subst after id.
  destruct (notification_writes r σ)
    as [(Hne & _) | (data & inserts & v & f & text & Hr & Hd & Hs & Hl & _ & Hfile
                     & Hgraph & Hupdates)]; [done|].
  destruct (provisioning_reads g (f_uuid f) (drawn σ) text (graph σ)
              (updates (trace σ)) Hworld (proj2 (proj2 (proj2 Hworld)) _ _ _ Hl))
    as (relink_text & Hlast & Hread & Hmeans).
  exists data, inserts, v, f, text, relink_text. rewrite Hupdates, Hgraph.
  split_and!; try done. apply edges_of_relink.
Qed.

End Succeeded.

(** ** Beyond the claims: what is never deleted *)

Section NeverDeleted.

Variable E : env.




End NeverDeleted.

(** ** Beyond the claims: bodies that are not what the entry points expect *)

Section OddBodies.

Variable E : env.

(** X5. A body that is valid JSON but not an object is not answered as a bad
    request: the direct entry point ends on the AttributeError of
    [data.update], the change-notification entry point on the TypeError of
    [data['delta']]; a body that is not JSON gets the 400 of both.  Nothing
    else happens. *)
Theorem bodies_that_are_no_objects data σ :
  (∀ items, data ≠ JObj items) →
  handle_fetch_drc E (Json data) σ = (Unhandled AttributeError, σ)
  ∧ handle_delta_update E (Json data) σ = (Unhandled TypeError, σ)
  ∧ handle_fetch_drc E InvalidJson σ = (RaisedHTTP 400 (TextBody "invalid json"), σ)
  ∧ handle_delta_update E InvalidJson σ = (RaisedHTTP 400 (TextBody "invalid json"), σ).
Proof.
  intros Hdata. split_and!; try done.
  - destruct data; try done. by destruct (Hdata items).
  - apply handle_delta_update_no_inserts.
    destruct data; try done. by destruct (Hdata items).
Qed.

(** X6. A direct request whose uuid is not a string ends on the AttributeError
    of [escape_string], raised inside [docker_compose] and so outside the
    [try]: it is not answered with the conflict envelope, no query is sent
    and nothing is written. *)
Theorem uuid_that_is_no_string items uuid σ :
  dict_get items "uuid" = Some uuid →
  (∀ u, uuid ≠ JStr u) →
  let after := handle_fetch_drc E (Json (JObj items)) σ in
  after.1 = Unhandled AttributeError
  ∧ graph after.2 = graph σ
  ∧ trace after.2 = trace σ.
Proof.
  intros Hu Hstr. unfold_run. cbn. rewrite Hu. cbn.
  destruct uuid; try done. by destruct (Hstr s).
Qed.

End OddBodies.

(** ** Beyond the claims: the change filter on arbitrary JSON *)

Section FilterEdges.

Local Open Scope res_scope.

(** An element without a readable object makes the comprehension raise. *)
Lemma comprehension_bad_object bad rest e :
  (o <- getitem bad "o" ;; getitem o "value") = Raise e →
  stack_inserted_comprehension (bad :: rest) = Raise e.
Proof.
  intros Hbad. cbn [stack_inserted_comprehension].
  destruct (getitem bad "o") as [o|e'] eqn:Ho; cbn [rbind] in *.
  - by rewrite Hbad.
  - by injection Hbad as ->.
Qed.

Lemma comprehension_raises_later pre ts bad post e :
  Forall2 (λ elem t, as_triple elem = Some t) pre ts →
  (o <- getitem bad "o" ;; getitem o "value") = Raise e →
  stack_inserted_comprehension (pre ++ bad :: post) = Raise e.
Proof.
  intros Hshape Hbad.
  induction Hshape as [|elem t pre ts Helem _ IH]; cbn [app].
  - by apply comprehension_bad_object.
  - rewrite (comprehension_cons _ _ _ Helem), IH. by destruct (qualifies t).
Qed.

(** X7. The filter looks at every element of the batch.  An element whose object
    cannot be read makes [stack_inserted] raise, wherever it stands in the
    batch and even when a Stack insert stands before it; the notification
    then ends on that exception with nothing done. *)
Theorem one_malformed_triple_fails_the_batch E data pre ts bad post e σ :
  delta_inserts data = Ok (JArr (pre ++ bad :: post)) →
  Forall2 (λ elem t, as_triple elem = Some t) pre ts →
  (o <- getitem bad "o" ;; getitem o "value") = Raise e →
  stack_inserted (JArr (pre ++ bad :: post)) = Raise e
  ∧ handle_delta_update E (Json data) σ = (Unhandled e, σ).
Proof.
  intros Hd Hshape Hbad.
  assert (stack_inserted (JArr (pre ++ bad :: post)) = Raise e) as Hs.
  { unfold stack_inserted. cbn [iterate rbind].
    by rewrite (comprehension_raises_later pre ts bad post e Hshape Hbad). }
  split; [done|].
  unfold handle_delta_update, finish, bind, lift. by rewrite Hd, Hs.
Qed.

(** X8. Elements that do not qualify are passed over without reading more of
    them than the test needs: a batch of elements whose object is not the
    Stack type, with or without predicate and subject, or whose predicate is
    not rdf:type, with or without subject, gives None. *)
Theorem unrelated_elements_need_no_subject elems :
  Forall (λ elem, other_object elem ∨ other_predicate elem) elems →
  stack_inserted (JArr elems) = Ok JNull.
Proof.
  intros Hall. unfold stack_inserted. cbn [iterate rbind].
  assert (stack_inserted_comprehension elems = Ok []) as ->; [|done].
  induction Hall as [|elem elems Helem _ IH]; [done|].
  cbn [stack_inserted_comprehension].
  destruct Helem as [(o & v & Ho & Hv & Hne)
                    | (o & v & p & w & Ho & Hv & Heq & Hp & Hw & Hne)].
  - rewrite Ho. cbn [rbind]. rewrite Hv. cbn [rbind]. by rewrite Hne.
  - rewrite Ho. cbn [rbind]. rewrite Hv. cbn [rbind]. rewrite Heq, Hp.
    cbn [rbind]. rewrite Hw. cbn [rbind]. by rewrite Hne.
Qed.

(** X9. What [inserts] may be besides a list.  Anything empty that can be
    iterated (a list, a dict, a string) gives None; a non-empty dict or
    string is iterated by keys or characters, which are strings and cannot
    be subscripted by ['o'], and None, a number or a boolean cannot be
    iterated: these raise TypeError. *)
Theorem stack_inserted_on_other_values inserts :
  (∀ elems, inserts ≠ JArr elems) →
  stack_inserted inserts
  = if truthy inserts then Raise TypeError
    else match inserts with
         | JObj [] | JStr EmptyString => Ok JNull
         | _ => Raise TypeError
         end.
Proof.
  intros Hlist. destruct inserts as [|b|n|s|elems|items]; try done.
  - by destruct b.
  - cbn. by destruct (n =? 0)%Z.
  - by destruct s.
  - by destruct (Hlist elems).
  - by destruct items as [|[k v] items].
Qed.

End FilterEdges.

(** ** Beyond the claims: the change-notification entry point *)

Section Notification.

Variable E : env.

(** The handler sees a body only through [data['delta'][0]['inserts']]. *)
Lemma handle_delta_update_by_inserts d d' σ :
  delta_inserts d = delta_inserts d' →
  handle_delta_update E (Json d) σ = handle_delta_update E (Json d') σ.
Proof.
  intros Heq. unfold handle_delta_update, finish, bind, lift. by rewrite Heq.
Qed.

(** X10. Only the first element of [delta] is looked at: two bodies that agree on
    it are handled alike, whatever the later elements insert. *)
Theorem later_deltas_are_ignored items items' first rest rest' σ :
  dict_get items "delta" = Some (JArr (first :: rest)) →
  dict_get items' "delta" = Some (JArr (first :: rest')) →
  handle_delta_update E (Json (JObj items)) σ
  = handle_delta_update E (Json (JObj items')) σ.
Proof.
  intros H H'. apply handle_delta_update_by_inserts.
  unfold delta_inserts. cbn. by rewrite H, H'.
Qed.

(** X11. A Stack insert whose subject is the empty string is taken for no insert
    at all ([if stack_uri:]): the notification is acknowledged and nothing is
    done, even when a later triple of the batch names a stack. *)
Theorem empty_subject_is_acknowledged data ts t σ :
  delta_body data ts →
  head (List.filter qualifies ts) = Some t →
  subject t = "" →
  handle_delta_update E (Json data) σ = (Responded 200 (TextBody "whatever"), σ).
Proof.
  intros (elems & Hd & Hshape) Hhead Hempty.
  pose proof (stack_inserted_shaped elems ts Hshape) as Hs.
  rewrite Hhead in Hs. cbn in Hs. rewrite Hempty in Hs.
  by apply (handle_delta_update_inert E data (JArr elems) (JStr "") σ Hd Hs).
Qed.

(** The run of a notification that provisions. *)
Lemma delta_update_links data inserts s f text σ :
  delta_inserts data = Ok inserts →
  stack_inserted inserts = Ok (JStr s) →
  s ≠ "" →
  lookup E (graph σ) (URIStack (JStr s)) = Some f →
  ask_has_drc (graph σ) (f_uuid f) = false →
  communicate E (clone_argv (f_location f) (f_branch f) (project_path_of (f_uuid f)))
    run_command_timeout = Exited 0 →
  read_file E (manifest_file (f_uuid f)) = Some text →
  handle_delta_update E (Json data) σ
  = (success,
     State (provisioned (f_uuid f) (uuid1_hex E (drawn σ)) text (graph σ))
       (S (drawn σ)) (all_known f)
       (trace σ
        ++ [Lookup (URIStack (JStr s));
            Query (ensure_stack_has_drc_text (app_graph E) (escape_text (f_uuid f)));
            Spawn (clone_argv (f_location f) (f_branch f) (project_path_of (f_uuid f)));
            Open (manifest_file (f_uuid f))]
        ++ map Update (provisioning_updates E (f_uuid f) (uuid1_hex E (drawn σ)) text))).
Proof.
  intros Hd Hs Hne Hl Hask Hc Hr. apply String.eqb_neq in Hne.
  unfold manifest_file, provisioned, provisioning_updates in *. exec.
  by flatten_trace.
Qed.

(** X12. A notification that provisions writes the edge on the address derived
    from the stack's uuid, [.../resources/stacks/{uuid}], whatever node
    address the notification named.  On identifiers that can stand in an IRI
    reference, the last update it sends reads as the relink of that address
    to the new manifest; the stack there gets the one edge to the new
    manifest, and when the named node has another address its edges stay as
    they were. *)
Theorem notification_links_by_uuid g data ts t f text σ :
  safe_world E g →
  delta_body data ts →
  head (List.filter qualifies ts) = Some t →
  subject t ≠ "" →
  lookup E (graph σ) (URIStack (JStr (subject t))) = Some f →
  ask_has_drc (graph σ) (f_uuid f) = false →
  communicate E (clone_argv (f_location f) (f_branch f) (project_path_of (f_uuid f)))
    run_command_timeout = Exited 0 →
  read_file E (manifest_file (f_uuid f)) = Some text →
  let after := handle_delta_update E (Json data) σ in
  let id := uuid1_hex E (drawn σ) in
  after.1 = Responded 200 (JsonBody success_envelope)
  ∧ (∃ relink_text,
       last (updates (trace after.2)) = Some relink_text
       ∧ read_relink relink_text
         = Some (g, "http://swarm-ui.big-data-europe.eu/resources/stacks/" ++ f_uuid f,
                 "http://stack-builder.big-data-europe.eu/resources/docker-composes/" ++ id)
       ∧ relink_meaning relink_text
           (insert_manifest (drc_uri_of id) id text (title_of (f_uuid f) id) (graph σ))
         = Some (graph after.2))
  ∧ edges_of (Iri (stack_uri_of (f_uuid f))) (graph after.2) = {[ Iri (drc_uri_of id) ]}
  ∧ (subject t ≠ stack_uri_of (f_uuid f) →
     edges_of (Iri (subject t)) (graph after.2) = edges_of (Iri (subject t)) (graph σ)).
Proof.
  intros Hworld (elems & Hd & Hshape) Hhead Hne Hl Hask Hc Hr after id.
  subst after id.
  pose proof (stack_inserted_shaped elems ts Hshape) as Hs.
  rewrite Hhead in Hs. cbn in Hs.
  rewrite (delta_update_links data (JArr elems) (subject t) f text σ
             Hd Hs Hne Hl Hask Hc Hr).
  cbn [fst snd graph trace].
  destruct (provisioning_reads E g (f_uuid f) (drawn σ) text (graph σ)
              (updates (trace σ)) Hworld (proj2 (proj2 (proj2 Hworld)) _ _ _ Hl))
    as (relink_text & Hlast & Hread & Hmeans).
  split_and!; try done.
  - exists relink_text. split_and!; try done.
    by rewrite !updates_app.
  - apply edges_of_relink.
  - intros Hother. unfold provisioned. rewrite edges_of_relink_other by congruence.
    apply edges_of_insert_manifest.
Qed.

End Notification.

(** ** Beyond the claims: the steps of the workflow on their own *)

Section Steps.

Variable E : env.

Lemma relink_relink stack_uri d d' G :
  relink stack_uri d' (relink stack_uri d G) = relink stack_uri d' G.
Proof.
  apply set_eq. intros t. rewrite !elem_of_relink. unfold is_edge_of. split.
  - intros [[[[Hin Hn] | ->] Hn'] | ->]; [by left; split | | by right].
    by destruct Hn'.
  - intros [[Hin Hn] | ->]; [|by right]. left. split; [|done]. by left.
Qed.

(** Reading the identifier depends on what the reference remembers only. *)
Lemma stack_uuid_by_memo s σ σ' v :
  memo σ' = memo σ →
  stack_uuid E s σ = (Ok v, σ) →
  stack_uuid E s σ' = (Ok v, σ').
Proof.
  intros Hm. destruct s as [uuid|uri]; cbn.
  - unfold ret. by intros [= ->].
  - unfold resolve, bind, get_memo, ret, emit, get_graph, set_memo, raise. cbn.
    rewrite Hm. destruct (k_uuid (memo σ)) as [u|]; cbn.
    + by intros [= ->].
    + destruct (lookup E (graph σ) (URIStack uri)); cbn; [|done].
      intros [= _ Hσ]. apply (f_equal trace) in Hσ. cbn in Hσ.
      apply (f_equal length) in Hσ. rewrite length_app in Hσ. cbn in Hσ. lia.
Qed.

(** X13. Relinking again replaces the former link.  On identifiers that can
    stand in an IRI reference, two relinks of a stack send two updates, each
    reading as the relink of the stack's address to its manifest and each
    making of the graph what its text says; afterwards the graph is what the
    second alone would have made of it, so the stack has the second manifest
    and not the first. *)
Theorem relink_last_write_wins g s u d d' σ :
  app_graph E = "<" ++ g ++ ">" →
  iri_safe g = true →
  iri_safe u = true →
  iri_safe d = true →
  iri_safe d' = true →
  stack_uuid E s σ = (Ok (JStr u), σ) →
  let first := update_stack_drc E d s σ in
  let second := update_stack_drc E d' s first.2 in
  let stack_uri := "http://swarm-ui.big-data-europe.eu/resources/stacks/" ++ u in
  (∃ text text',
      updates (trace second.2) = (updates (trace σ) ++ [text; text'])%list
      ∧ read_relink text = Some (g, stack_uri, d)
      ∧ read_relink text' = Some (g, stack_uri, d')
      ∧ relink_meaning text (graph σ) = Some (graph first.2)
      ∧ relink_meaning text' (graph first.2) = Some (graph second.2))
  ∧ graph second.2 = graph (update_stack_drc E d' s σ).2
  ∧ edges_of (Iri stack_uri) (graph second.2) = {[ Iri d' ]}.
Proof.
  intros Hg Hsafe Hsafe_u Hd Hd' Hu first second stack_uri.
  subst first second stack_uri.
  assert (∀ x σ', memo σ' = memo σ →
            update_stack_drc E x s σ'
            = (Ok tt, State (relink (stack_uri_of u) x (graph σ')) (drawn σ') (memo σ')
                        (trace σ' ++ [Update (update_stack_drc_text (app_graph E)
                                                (stack_uri_of u) x)]))) as Hrun.
  { intros x σ' Hm. unfold update_stack_drc, bind.
    by rewrite (stack_uuid_by_memo s σ σ' (JStr u) Hm Hu). }
  rewrite (Hrun d σ eq_refl). cbn [snd].
  set (σ1 := State _ _ _ _).
  rewrite (Hrun d' σ1 eq_refl), (Hrun d' σ eq_refl). cbn [snd graph trace σ1].
  destruct (update_stack_drc_text_reads E g u d (graph σ) Hg Hsafe Hsafe_u Hd)
    as (Hread & Hmeans).
  destruct (update_stack_drc_text_reads E g u d' (relink (stack_uri_of u) d (graph σ))
              Hg Hsafe Hsafe_u Hd') as (Hread' & Hmeans').
  split_and!.
  - eexists _, _. split_and!; [|exact Hread | exact Hread' | exact Hmeans | exact Hmeans'].
    rewrite !updates_app. cbn. by rewrite <- app_assoc.
  - by rewrite relink_relink.
  - apply (edges_of_relink (stack_uri_of u)).
Qed.

(** X14. Without a manifest body [create_drc_db] sends nothing: the
    AttributeError of [escape_string(drc)] is raised while the arguments of
    the update are evaluated.  An identifier has been drawn by then. *)
Theorem create_drc_db_without_body s u drc σ :
  stack_uuid E s σ = (Ok (JStr u), σ) →
  (∀ text, drc ≠ JStr text) →
  create_drc_db E drc s σ
  = (Raise AttributeError, State (graph σ) (S (drawn σ)) (memo σ) (trace σ)).
Proof.
  intros Hu Hdrc. unfold create_drc_db. unfold bind at 1, draw. cbn.
  unfold bind at 1.
  rewrite (stack_uuid_by_memo s σ (State (graph σ) (S (drawn σ)) (memo σ) (trace σ))
             (JStr u) eq_refl Hu).
  unfold bind, lift. cbn.
  destruct drc; try done. by destruct (Hdrc s0).
Qed.

(** X15. With a manifest body it persists one entity: the four triples of the
    manifest under the address derived from the drawn identifier, and the
    graph had nothing removed. *)
Theorem create_drc_db_persists s u text σ :
  stack_uuid E s σ = (Ok (JStr u), σ) →
  let drc_uuid := uuid1_hex E (drawn σ) in
  let uri := drc_uri_of drc_uuid in
  let after := create_drc_db E (JStr text) s σ in
  after.1 = Ok uri
  ∧ graph after.2
    = graph σ ∪ {[ (Iri uri, IS_A, DOCKER_COMPOSE);
                   (Iri uri, MU_UUID, Lit drc_uuid);
                   (Iri uri, TEXT, Lit text);
                   (Iri uri, TITLE, Lit (title_of u drc_uuid)) ]}
  ∧ graph σ ⊆ graph after.2
  ∧ manifests (graph after.2) = manifests (graph σ) ∪ {[ Iri uri ]}
  ∧ (∀ x, edges_of x (graph after.2) = edges_of x (graph σ))
  ∧ updates (trace after.2)
    = (updates (trace σ)
       ++ [create_drc_db_text (app_graph E) uri (escape_text drc_uuid)
             (escape_text text) (escape_text (title_of u drc_uuid))])%list.
Proof.
  intros Hu drc_uuid uri after.
  assert (after = (Ok uri,
                   State (insert_manifest uri drc_uuid text (title_of u drc_uuid) (graph σ))
                     (S (drawn σ)) (memo σ)
                     (trace σ ++ [Update (create_drc_db_text (app_graph E) uri
                                            (escape_text drc_uuid) (escape_text text)
                                            (escape_text (title_of u drc_uuid)))]))) as ->.
  { subst after. unfold create_drc_db. unfold bind at 1, draw. cbn.
    unfold bind at 1.
    by rewrite (stack_uuid_by_memo s σ (State (graph σ) (S (drawn σ)) (memo σ) (trace σ))
                  (JStr u) eq_refl Hu). }
  cbn [fst snd graph trace]. split_and!; try done.
  - unfold insert_manifest. apply union_subseteq_l.
  - apply manifests_insert_manifest.
  - intros x. apply edges_of_insert_manifest.
  - by rewrite updates_app.
Qed.

End Steps.

(** ** Beyond the claims: the guard against provisioning twice *)

Section Guard.

Variable E : env.

(** X16. For a stack that already has a manifest the direct entry point sends its
    one ASK and stops: no lookup, no child process, no file read and no
    update follow, and the graph stays as it is.  An identifier is drawn all
    the same, by the [create_drc_db] that fails. *)
Theorem linked_stack_is_not_fetched items u σ :
  dict_get items "uuid" = Some (JStr u) →
  ask_has_drc (graph σ) u = true →
  let after := handle_fetch_drc E (Json (JObj items)) σ in
  after.1 = RaisedHTTP 500 (JsonBody (conflict_envelope u))
  ∧ trace after.2
    = (trace σ ++ [Query (ensure_stack_has_drc_text (app_graph E) (escape_text u))])%list
  ∧ graph after.2 = graph σ
  ∧ drawn after.2 = S (drawn σ).
Proof.
  intros Hu Hask after. subst after.
  by rewrite (fetch_drc_already_linked E items u σ Hu Hask).
Qed.

(** X17. The same on the change-notification entry point, after the lookup that
    gives the stack's uuid. *)
Theorem linked_stack_is_not_fetched_on_notification data ts t f σ :
  delta_body data ts →
  head (List.filter qualifies ts) = Some t →
  subject t ≠ "" →
  lookup E (graph σ) (URIStack (JStr (subject t))) = Some f →
  ask_has_drc (graph σ) (f_uuid f) = true →
  let after := handle_delta_update E (Json data) σ in
  (∃ detail, after.1 = RaisedHTTP 500 (JsonBody (conflict_envelope detail)))
  ∧ trace after.2
    = (trace σ ++ [Lookup (URIStack (JStr (subject t)));
                   Query (ensure_stack_has_drc_text (app_graph E)
                            (escape_text (f_uuid f)))])%list
  ∧ graph after.2 = graph σ.
Proof.
  intros (elems & Hd & Hshape) Hhead Hne Hl Hask after. subst after.
  pose proof (stack_inserted_shaped elems ts Hshape) as Hs.
  rewrite Hhead in Hs. cbn in Hs.
  rewrite (delta_update_already_linked E data (JArr elems) (subject t) f σ
             Hd Hs Hne Hl Hask).
  split_and!; try done. by eexists.
Qed.

Lemma resolve_direct_payload G data u location branch :
  str_field data "location" = Some location →
  str_field data "branch" = Some branch →
  resolve_direct E G data u = Some (location, branch, payload_known data, []).
Proof. intros Hl Hb. unfold resolve_direct. by rewrite Hl, Hb. Qed.

(** The ASK looks for an edge on a node that carries the uuid, while the
    relink writes the edge on the address derived from the uuid.  When no
    node of that address carries the uuid, the ASK does not see the edge the
    workflow has just written. *)
Lemma guard_misses_unrecorded_stack G u drc_uuid text :
  ask_has_drc G u = false →
  (Iri (stack_uri_of u), MU_UUID, Lit u) ∉ G →
  drc_uuid ≠ u →
  ask_has_drc (provisioned u drc_uuid text G) u = false.
Proof.
  intros Hask Hnode Hfresh. apply not_true_iff_false.
  intros (s & x & Hs & Hx)%ask_has_drc_spec. unfold provisioned in *.
  assert ((s, MU_UUID, Lit u) ∈ G) as HsG.
  { apply elem_of_relink in Hs as [[Hs _] | Hs]; [|done].
    apply elem_of_insert_manifest in Hs as [Hs | Hs]; [done|].
    apply elem_of_manifest_triples in Hs as [Hs | [Hs | [Hs | Hs]]]; try done.
    injection Hs as _ Hu. by destruct Hfresh. }
  apply elem_of_relink in Hx as [[Hx _] | Hx].
  - apply elem_of_insert_manifest in Hx as [Hx | Hx].
    + assert (ask_has_drc G u = true) by (apply ask_has_drc_spec; eauto).
      congruence.
    + by apply elem_of_manifest_triples in Hx as [Hx | [Hx | [Hx | Hx]]].
  - injection Hx as -> _. done.
Qed.

(** X18. The guard works through the stack's node.  A direct request that
    brings its own location and branch and names a uuid, one that can stand
    in an IRI reference, which no node at [.../resources/stacks/{uuid}]
    carries, is answered with the success envelope and leaves the edge on
    that address; but the ASK of the guard, asked on the graph the request
    has left, still answers False: the guard does not see the manifest that
    was just linked. *)
Theorem unrecorded_stack_stays_unguarded g items u location branch text σ :
  safe_world E g →
  iri_safe u = true →
  dict_get items "uuid" = Some (JStr u) →
  str_field (JObj items) "location" = Some location →
  str_field (JObj items) "branch" = Some branch →
  ask_has_drc (graph σ) u = false →
  (Iri (stack_uri_of u), MU_UUID, Lit u) ∉ graph σ →
  uuid1_hex E (drawn σ) ≠ u →
  communicate E (clone_argv location branch (project_path_of u))
    run_command_timeout = Exited 0 →
  read_file E (manifest_file u) = Some text →
  let first := handle_fetch_drc E (Json (JObj items)) σ in
  let id := uuid1_hex E (drawn σ) in
  first.1 = Responded 200 (JsonBody success_envelope)
  ∧ (∃ relink_text,
       last (updates (trace first.2)) = Some relink_text
       ∧ read_relink relink_text
         = Some (g, "http://swarm-ui.big-data-europe.eu/resources/stacks/" ++ u,
                 "http://stack-builder.big-data-europe.eu/resources/docker-composes/" ++ id)
       ∧ relink_meaning relink_text
           (insert_manifest (drc_uri_of id) id text (title_of u id) (graph σ))
         = Some (graph first.2))
  ∧ edges_of (Iri (stack_uri_of u)) (graph first.2) = {[ Iri (drc_uri_of id) ]}
  ∧ (ensure_stack_has_drc E (JStr u) first.2).1 = Ok false.
Proof.
  intros Hworld Hsafe Hu Hl Hb Hask Hnode Hfresh Hc Hr first id.
  subst first id.
  rewrite (fetch_drc_links E items u σ Hu _ _ _ _
             (resolve_direct_payload _ _ u _ _ Hl Hb) text Hask Hc Hr).
  cbn [fst snd graph trace].
  destruct (provisioning_reads E g u (drawn σ) text (graph σ) (updates (trace σ))
              Hworld Hsafe) as (relink_text & Hlast & Hread & Hmeans).
  split_and!; try done.
  - exists relink_text. split_and!; try done.
    rewrite !updates_app. by cbn.
  - apply edges_of_relink.
  - unfold ensure_stack_has_drc, bind, lift, emit, get_graph, ret. cbn.
    f_equal. by apply guard_misses_unrecorded_stack.
Qed.

(** X19. A notification repeated for a stack that is recorded under its address
    and resolves to the same uuid on the new graph is answered with the
    conflict envelope, and the graph holds the one manifest and the one edge
    of the first. *)
Theorem notification_twice data ts t f f' text σ :
  delta_body data ts →
  head (List.filter qualifies ts) = Some t →
  subject t ≠ "" →
  (Iri (stack_uri_of (f_uuid f)), MU_UUID, Lit (f_uuid f)) ∈ graph σ →
  lookup E (graph σ) (URIStack (JStr (subject t))) = Some f →
  ask_has_drc (graph σ) (f_uuid f) = false →
  communicate E (clone_argv (f_location f) (f_branch f) (project_path_of (f_uuid f)))
    run_command_timeout = Exited 0 →
  read_file E (manifest_file (f_uuid f)) = Some text →
  lookup E (provisioned (f_uuid f) (uuid1_hex E (drawn σ)) text (graph σ))
    (URIStack (JStr (subject t))) = Some f' →
  f_uuid f' = f_uuid f →
  let first := handle_delta_update E (Json data) σ in
  let second := handle_delta_update E (Json data) first.2 in
  let uri := Iri (drc_uri_of (uuid1_hex E (drawn σ))) in
  first.1 = Responded 200 (JsonBody success_envelope)
  ∧ (∃ detail, second.1 = RaisedHTTP 500 (JsonBody (conflict_envelope detail)))
  ∧ graph second.2 = graph first.2
  ∧ edges_of (Iri (stack_uri_of (f_uuid f))) (graph second.2) = {[ uri ]}
  ∧ manifests (graph second.2) = manifests (graph σ) ∪ {[ uri ]}.
Proof.
  intros (elems & Hd & Hshape) Hhead Hne Hnode Hl Hask Hc Hr Hl' Hsame
    first second uri. subst first second uri.
  pose proof (stack_inserted_shaped elems ts Hshape) as Hs.
  rewrite Hhead in Hs. cbn in Hs.
  rewrite (delta_update_links E data (JArr elems) (subject t) f text σ
             Hd Hs Hne Hl Hask Hc Hr).
  cbn [fst snd].
  set (σ1 := State _ _ _ _).
  assert (ask_has_drc (graph σ1) (f_uuid f') = true) as Hlinked.
  { rewrite Hsame. apply ask_has_drc_spec.
    exists (Iri (stack_uri_of (f_uuid f))), (Iri (drc_uri_of (uuid1_hex E (drawn σ)))).
    split.
    - by apply uuid_triple_kept.
    - apply elem_of_relink. by right. }
  rewrite (delta_update_already_linked E data (JArr elems) (subject t) f' σ1
             Hd Hs Hne Hl' Hlinked).
  cbn [fst snd graph σ1]. unfold provisioned. split_and!; try done.
  - by eexists.
  - apply edges_of_relink.
  - by rewrite manifests_relink, manifests_insert_manifest.
Qed.

End Guard.

(** ** Beyond the claims: the two read-only steps *)

Section ReadOnly.

Variable E : env.

(** X20. [docker_compose] only reads: whatever the stack and the state, it
    leaves the graph as it is, sends no update and draws no identifier,
    whether it returns or raises; and what it returns, when it returns, is
    the text of a file or None. *)
Theorem docker_compose_writes_nothing s σ :
  let after := docker_compose E s σ in
  graph after.2 = graph σ
  ∧ updates (trace after.2) = updates (trace σ)
  ∧ drawn after.2 = drawn σ
  ∧ match after.1 with
    | Ok v => v = JNull ∨ ∃ text, v = JStr text
    | Raise _ => True
    end.
Proof.
  intros after. subst after.
  destruct (quiet_docker_compose E (graph σ) (updates (trace σ)) (drawn σ) s σ)
    as (HG & Hsent & Hn); [done|].
  split_and!; try done.
  unfold docker_compose, ensure_stack_has_drc, stack_location, stack_branch,
    run_command, stack_uuid, resolve.
  unfold bind, ret, lift, raise, emit, get_graph, get_memo, set_memo.
  destruct s as [uuid|uri]; cbn.
  - destruct uuid; cbn; eauto.
    destruct (ask_has_drc _ _); cbn; eauto.
    destruct (k_location (memo σ)); cbn;
      [destruct (k_branch (memo σ)); cbn|];
      try (destruct (lookup E _ _); cbn; eauto);
      destruct (communicate E _ _) as [[]|[[]|]]; cbn; eauto;
      destruct (read_file E _); cbn; eauto.
  - destruct (k_uuid (memo σ)); cbn;
      try (destruct (lookup E _ _); cbn; eauto);
      destruct (ask_has_drc _ _); cbn; eauto;
      try (destruct (k_location (memo σ)); cbn;
           [destruct (k_branch (memo σ)); cbn|];
           try (destruct (lookup E _ _); cbn; eauto));
      destruct (communicate E _ _) as [[]|[[]|]]; cbn; eauto;
      destruct (read_file E _); cbn; eauto.
Qed.

(** X21. The guard, spelled out on the graph: for a string uuid
    [ensure_stack_has_drc] sends one ASK with the uuid escaped, changes
    nothing, and answers True exactly when some node carrying that uuid has
    a dockerComposeFile edge; for anything else it raises the AttributeError
    of [escape_string] before any query is sent. *)
Theorem ensure_stack_has_drc_reads_the_graph uuid σ :
  match uuid with
  | JStr u =>
      ∃ answer,
        ensure_stack_has_drc E uuid σ
        = (Ok answer,
           State (graph σ) (drawn σ) (memo σ)
             (trace σ ++ [Query (ensure_stack_has_drc_text (app_graph E)
                                   (escape_text u))]))
        ∧ (answer = true
           ↔ ∃ s x, (s, MU_UUID, Lit u) ∈ graph σ
                    ∧ (s, DOCKER_COMPOSE_FILE, x) ∈ graph σ)
  | _ => ensure_stack_has_drc E uuid σ = (Raise AttributeError, σ)
  end.
Proof.
  destruct uuid; try done.
  exists (ask_has_drc (graph σ) s). split; [done|]. apply ask_has_drc_spec.
Qed.

End ReadOnly.

(** ** The further properties on the concrete world *)

Section MoreConcrete.

Import Example Scenario.

(** The identifiers of the example world can stand in an IRI reference. *)
Lemma world_safe c file : safe_world (world c file) "http://mu.semte.ch/application".
Proof.
  split_and!; try done.
  - intros n.
    change (iri_safe (String.concat "" (replicate (S n) "c0ffee")) = true).
    induction n as [|n IH]; [done|].
    change (iri_safe ("c0ffee" ++ String.concat "" (replicate (S n) "c0ffee")) = true).
    by rewrite iri_safe_app, IH.
  - by intros G s f [= <-].
Qed.

Lemma direct_safe : safe_request direct.
Proof. by intros u [= <-]. Qed.

(** The crafted uuid cannot stand in an IRI reference, and the text sent for
    it does not read as a relink statement. *)
Lemma crafted_text_is_not_read :
  iri_safe crafted_uuid = false
  ∧ read_relink (update_stack_drc_text (app_graph fetchable)
                   (stack_uri_of crafted_uuid) (drc_uri_of "c0ffee")) = None.
Proof. split; by vm_compute. Qed.


Lemma direct_success_means_provisioned_witness :
  let after := handle_fetch_drc fetchable direct (start unlinked) in
  ∃ relink_text,
    read_file fetchable (manifest_file "abc123") = Some compose_text
    ∧ last (updates (trace after.2)) = Some relink_text
    ∧ read_relink relink_text
      = Some ("http://mu.semte.ch/application",
              "http://swarm-ui.big-data-europe.eu/resources/stacks/abc123",
              "http://stack-builder.big-data-europe.eu/resources/docker-composes/c0ffee")
    ∧ edges_of (Iri (stack_uri_of "abc123")) (graph after.2)
      = {[ Iri (drc_uri_of "c0ffee") ]}.
Proof.
  destruct (direct_success_means_provisioned fetchable "http://mu.semte.ch/application"
              direct (start unlinked) (world_safe _ _) direct_safe)
    as (u & text & relink_text & Hu & Hfile & _ & Hlast & Hread & _ & Hedges).
  - vm_compute. reflexivity.
  - injection Hu as <-. exists relink_text.
    split_and!; [reflexivity | exact Hlast | exact Hread | exact Hedges].
Defined.

Lemma notification_success_means_provisioned_witness :
  let after := handle_delta_update fetchable notification (start unlinked) in
  ∃ relink_text,
    last (updates (trace after.2)) = Some relink_text
    ∧ read_relink relink_text
      = Some ("http://mu.semte.ch/application",
              "http://swarm-ui.big-data-europe.eu/resources/stacks/abc123",
              "http://stack-builder.big-data-europe.eu/resources/docker-composes/c0ffee")
    ∧ edges_of (Iri (stack_uri_of "abc123")) (graph after.2)
      = {[ Iri (drc_uri_of "c0ffee") ]}.
Proof.
  destruct (notification_success_means_provisioned fetchable
              "http://mu.semte.ch/application" notification (start unlinked)
              (world_safe _ _))
    as (data & inserts & v & f & text & relink_text & _ & _ & _ & Hl & _ & _
        & Hlast & Hread & _ & Hedges).
  - vm_compute. reflexivity.
  - change (Some fields = Some f) in Hl. injection Hl as <-. exists relink_text.
    split_and!; [exact Hlast | exact Hread | exact Hedges].
Defined.



Lemma bodies_that_are_no_objects_witness :
  handle_fetch_drc fetchable (Json (JArr [])) (start linked)
  = (Unhandled AttributeError, start linked)
  ∧ handle_delta_update fetchable (Json (JArr [])) (start linked)
    = (Unhandled TypeError, start linked)
  ∧ handle_fetch_drc fetchable InvalidJson (start linked)
    = (RaisedHTTP 400 (TextBody "invalid json"), start linked)
  ∧ handle_delta_update fetchable InvalidJson (start linked)
    = (RaisedHTTP 400 (TextBody "invalid json"), start linked).
Proof.
  apply (bodies_that_are_no_objects fetchable (JArr []) (start linked)).
  intros items. discriminate.
Defined.

Lemma uuid_that_is_no_string_witness :
  let after := handle_fetch_drc fetchable (Json (JObj [("uuid", JNum 7)]))
                 (start unlinked) in
  after.1 = Unhandled AttributeError
  ∧ graph after.2 = unlinked
  ∧ trace after.2 = [].
Proof.
  apply (uuid_that_is_no_string fetchable [("uuid", JNum 7)] (JNum 7) (start unlinked)).
  - reflexivity.
  - intros u. discriminate.
Defined.

Lemma one_malformed_triple_fails_the_batch_witness :
  stack_inserted (JArr (map triple_json [stack_triple "S1"] ++ [JObj []]))
  = Raise KeyError
  ∧ handle_delta_update fetchable (Json broken_batch) (start unlinked)
    = (Unhandled KeyError, start unlinked).
Proof.
  apply (one_malformed_triple_fails_the_batch fetchable broken_batch
           (map triple_json [stack_triple "S1"]) [stack_triple "S1"] (JObj []) []
           KeyError (start unlinked)).
  - reflexivity.
  - repeat constructor.
  - reflexivity.
Defined.

Lemma unrelated_elements_need_no_subject_witness :
  stack_inserted (JArr partial_elements) = Ok JNull.
Proof.
  apply (unrelated_elements_need_no_subject partial_elements).
  constructor; [|constructor; [|constructor]].
  - right. eexists _, _, _, _. repeat split; reflexivity.
  - left. eexists _, _. repeat split; reflexivity.
Defined.

Lemma stack_inserted_on_other_values_witness :
  stack_inserted (JStr "abc") = Raise TypeError
  ∧ stack_inserted (JObj []) = Ok JNull
  ∧ stack_inserted JNull = Raise TypeError.
Proof.
  split_and!.
  - apply (stack_inserted_on_other_values (JStr "abc")). intros elems. discriminate.
  - apply (stack_inserted_on_other_values (JObj [])). intros elems. discriminate.
  - apply (stack_inserted_on_other_values JNull). intros elems. discriminate.
Defined.

Lemma later_deltas_are_ignored_witness :
  handle_delta_update fetchable (Json (JObj two_deltas)) (start unlinked)
  = handle_delta_update fetchable (Json (JObj one_delta)) (start unlinked).
Proof.
  apply (later_deltas_are_ignored fetchable two_deltas one_delta
           (JObj [("inserts", JArr (map triple_json [other_triple]))])
           [JObj [("inserts", JArr (map triple_json inserted))]] []
           (start unlinked)).
  - reflexivity.
  - reflexivity.
Defined.

Lemma empty_subject_is_acknowledged_witness :
  handle_delta_update fetchable (Json (delta_json nameless)) (start unlinked)
  = (Responded 200 (TextBody "whatever"), start unlinked).
Proof.
  apply (empty_subject_is_acknowledged fetchable (delta_json nameless) nameless
           (stack_triple "") (start unlinked)).
  - apply delta_json_body.
  - reflexivity.
  - reflexivity.
Defined.

Lemma notification_links_by_uuid_witness :
  let after := handle_delta_update fetchable (Json (delta_json elsewhere))
                 (start unlinked) in
  after.1 = Responded 200 (JsonBody success_envelope)
  ∧ (∃ relink_text,
       last (updates (trace after.2)) = Some relink_text
       ∧ read_relink relink_text
         = Some ("http://mu.semte.ch/application",
                 "http://swarm-ui.big-data-europe.eu/resources/stacks/abc123",
                 "http://stack-builder.big-data-europe.eu/resources/docker-composes/c0ffee"))
  ∧ edges_of (Iri (stack_uri_of "abc123")) (graph after.2)
    = {[ Iri (drc_uri_of "c0ffee") ]}
  ∧ edges_of (Iri "http://example.test/stacks/1") (graph after.2)
    = edges_of (Iri "http://example.test/stacks/1") unlinked.
Proof.
  destruct (notification_links_by_uuid fetchable "http://mu.semte.ch/application"
              (delta_json elsewhere) elsewhere
              (stack_triple "http://example.test/stacks/1") fields compose_text
              (start unlinked) (world_safe _ _))
    as (Hanswer & (relink_text & Hlast & Hread & _) & Hedge & Hother).
  - apply delta_json_body.
  - reflexivity.
  - discriminate.
  - reflexivity.
  - vm_compute. reflexivity.
  - reflexivity.
  - reflexivity.
  - split_and!; [exact Hanswer | | exact Hedge | apply Hother].
    + exists relink_text. split; [exact Hlast | exact Hread].
    + vm_compute. discriminate.
Defined.

Lemma relink_last_write_wins_witness :
  let s := UUIDStack (JStr "abc123") in
  let first := update_stack_drc fetchable (drc_uri_of "0d15ea5e") s (start linked) in
  let second := update_stack_drc fetchable (drc_uri_of "c0ffee") s first.2 in
  (∃ text text',
      updates (trace second.2) = [text; text']
      ∧ read_relink text'
        = Some ("http://mu.semte.ch/application",
                "http://swarm-ui.big-data-europe.eu/resources/stacks/abc123",
                drc_uri_of "c0ffee"))
  ∧ graph second.2
    = graph (update_stack_drc fetchable (drc_uri_of "c0ffee") s (start linked)).2
  ∧ edges_of (Iri (stack_uri_of "abc123")) (graph second.2)
    = {[ Iri (drc_uri_of "c0ffee") ]}.
Proof.
  destruct (relink_last_write_wins fetchable "http://mu.semte.ch/application"
              (UUIDStack (JStr "abc123")) "abc123"
              (drc_uri_of "0d15ea5e") (drc_uri_of "c0ffee") (start linked)
              eq_refl eq_refl eq_refl eq_refl eq_refl eq_refl)
    as ((text & text' & Hsent & _ & Hread & _) & Hgraph & Hedges).
  split_and!; [|exact Hgraph | exact Hedges].
  exists text, text'. split; [exact Hsent | exact Hread].
Defined.

Lemma create_drc_db_without_body_witness :
  create_drc_db fetchable JNull (UUIDStack (JStr "abc123")) (start unlinked)
  = (Raise AttributeError, State unlinked 1 nothing_known []).
Proof.
  apply (create_drc_db_without_body fetchable (UUIDStack (JStr "abc123")) "abc123"
           JNull (start unlinked)).
  - reflexivity.
  - intros text. discriminate.
Defined.

Lemma create_drc_db_persists_witness :
  let after := create_drc_db fetchable (JStr compose_text)
                 (UUIDStack (JStr "abc123")) (start unlinked) in
  after.1 = Ok (drc_uri_of "c0ffee")
  ∧ unlinked ⊆ graph after.2
  ∧ manifests (graph after.2) = manifests unlinked ∪ {[ Iri (drc_uri_of "c0ffee") ]}.
Proof.
  destruct (create_drc_db_persists fetchable (UUIDStack (JStr "abc123")) "abc123"
              compose_text (start unlinked) eq_refl)
    as (Huri & _ & Hkept & Hmanifests & _).
  split_and!; [exact Huri | exact Hkept | exact Hmanifests].
Defined.

Lemma linked_stack_is_not_fetched_witness :
  let after := handle_fetch_drc fetchable direct (start linked) in
  after.1 = RaisedHTTP 500 (JsonBody (conflict_envelope "abc123"))
  ∧ trace after.2
    = [Query (ensure_stack_has_drc_text "<http://mu.semte.ch/application>"
                (escape_text "abc123"))]
  ∧ graph after.2 = linked
  ∧ drawn after.2 = 1%nat.
Proof.
  apply (linked_stack_is_not_fetched fetchable direct_items "abc123" (start linked)).
  - reflexivity.
  - vm_compute. reflexivity.
Defined.

Lemma linked_stack_is_not_fetched_on_notification_witness :
  let after := handle_delta_update fetchable notification (start linked) in
  (∃ detail, after.1 = RaisedHTTP 500 (JsonBody (conflict_envelope detail)))
  ∧ trace after.2
    = [Lookup (URIStack (JStr (stack_uri_of "abc123")));
       Query (ensure_stack_has_drc_text "<http://mu.semte.ch/application>"
                (escape_text "abc123"))]
  ∧ graph after.2 = linked.
Proof.
  apply (linked_stack_is_not_fetched_on_notification fetchable (delta_json inserted)
           inserted (stack_triple (stack_uri_of "abc123")) fields (start linked)).
  - apply delta_json_body.
  - reflexivity.
  - vm_compute. discriminate.
  - reflexivity.
  - vm_compute. reflexivity.
Defined.

Lemma unrecorded_stack_stays_unguarded_witness :
  let first := handle_fetch_drc fetchable direct (start ∅) in
  first.1 = Responded 200 (JsonBody success_envelope)
  ∧ edges_of (Iri (stack_uri_of "abc123")) (graph first.2)
    = {[ Iri (drc_uri_of "c0ffee") ]}
  ∧ (ensure_stack_has_drc fetchable (JStr "abc123") first.2).1 = Ok false.
Proof.
  destruct (unrecorded_stack_stays_unguarded fetchable "http://mu.semte.ch/application"
              direct_items "abc123" "https://example.test/r.git" "main" compose_text
              (start ∅) (world_safe _ _))
    as (Hanswer & _ & Hedges & Hguard).
  - reflexivity.
  - reflexivity.
  - reflexivity.
  - reflexivity.
  - vm_compute. reflexivity.
  - apply not_elem_of_empty.
  - vm_compute. discriminate.
  - reflexivity.
  - reflexivity.
  - split_and!; [exact Hanswer | exact Hedges | exact Hguard].
Defined.

Lemma notification_twice_witness :
  let first := handle_delta_update fetchable notification (start unlinked) in
  let second := handle_delta_update fetchable notification first.2 in
  first.1 = Responded 200 (JsonBody success_envelope)
  ∧ (∃ detail, second.1 = RaisedHTTP 500 (JsonBody (conflict_envelope detail)))
  ∧ graph second.2 = graph first.2
  ∧ edges_of (Iri (stack_uri_of "abc123")) (graph second.2)
    = {[ Iri (drc_uri_of "c0ffee") ]}
  ∧ manifests (graph second.2) = manifests unlinked ∪ {[ Iri (drc_uri_of "c0ffee") ]}.
Proof.
  apply (notification_twice fetchable (delta_json inserted) inserted
           (stack_triple (stack_uri_of "abc123")) fields fields compose_text
           (start unlinked)).
  - apply delta_json_body.
  - reflexivity.
  - vm_compute. discriminate.
  - apply stack_node_unlinked.
  - reflexivity.
  - vm_compute. reflexivity.
  - reflexivity.
  - reflexivity.
  - reflexivity.
  - reflexivity.
Defined.

End MoreConcrete.
